(** * PLAMA chat-request cache: staging, streaming dispatch and eviction

    A shallow embedding of the chat lifecycle of [app.py]:
    - [chat]                 (POST /api/chat):        stages a submission in [CHAT_REQUESTS];
    - [cleanup_request_data] (threading.Timer, 300s): evicts a staged entry;
    - [chat_stream]          (GET /api/chat/stream):  looks an entry up and opens the stream;
    - [generate_response]    (the generator behind the stream): relays the model's
      chunks as server-sent events and removes the entry when it ends.

    Python values decoded from JSON are the type [pyval]; text is a [string] of
    UTF-8 bytes.  Mutable Python objects that several handlers hold at once (the
    history list and the api_state dict of a submission) live in a heap and are
    named by location, so aliasing between the table and the generator's closure
    is kept.  The generator is a resumable computation: between two [yield]s it
    runs as one atomic segment on the shared state, and whatever the rest of the
    process did while it was suspended is a function on that state. *)

From Stdlib Require Import Floats.PrimFloat.
From Stdlib Require Import Ascii.
From stdpp Require Import gmap strings list fin_maps pretty.

Set Warnings "-register-all".
Local Open Scope Z_scope.

(** ** Python values *)

Module Py.

Inductive pyval :=
| PNone
| PBool (b : bool)
| PInt (z : Z)
| PFloat (f : float)
| PStr (s : string)
| PList (items : list pyval)
| PDict (fields : list (string * pyval)).

Abbreviation pydict := (list (string * pyval)).

(** [bool(v)] *)
Definition truthy (v : pyval) : bool :=
  match v with
  | PNone => false
  | PBool b => b
  | PInt z => negb (z =? 0)
  | PFloat f => negb (PrimFloat.eqb f 0%float)
  | PStr s => negb (String.eqb s "")
  | PList items => match items with [] => false | _ => true end
  | PDict fields => match fields with [] => false | _ => true end
  end.

(** [d.get(k)]: [None] when the key is absent. *)
Fixpoint dict_get (d : pydict) (k : string) : option pyval :=
  match d with
  | [] => None
  | (k', v) :: rest => if String.eqb k' k then Some v else dict_get rest k
  end.

(** [d.get(k, dflt)] *)
Definition dict_get_or (d : pydict) (k : string) (dflt : pyval) : pyval :=
  default dflt (dict_get d k).

(** [d[k] = v]: an existing key keeps its place, a new one goes last. *)
Fixpoint dict_set (d : pydict) (k : string) (v : pyval) : pydict :=
  match d with
  | [] => [(k, v)]
  | (k', v') :: rest =>
      if String.eqb k' k then (k, v) :: rest else (k', v') :: dict_set rest k v
  end.

(** [isinstance(v, dict) and v.get('type') == 'image'] *)
Definition is_image_turn (v : pyval) : bool :=
  match v with
  | PDict fields =>
      match dict_get fields "type" with
      | Some (PStr t) => String.eqb t "image"
      | _ => false
      end
  | _ => false
  end.

(** ** Text: UTF-8 byte strings *)

Definition byte_of (c : ascii) : N := N_of_ascii c.

(** A UTF-8 continuation byte, [10xxxxxx]. *)
Definition is_cont (c : ascii) : bool :=
  ((128 <=? byte_of c) && (byte_of c <? 192))%N.

(** The code points [str.strip()] removes (Python's [str.isspace] set):
    U+0009..U+000D, U+001C..U+0020, then U+0085 and U+00A0 (two bytes), and
    U+1680, U+2000..U+200A, U+2028, U+2029, U+202F, U+205F, U+3000 (three). *)
Definition space1 (c : ascii) : bool :=
  let n := byte_of c in
  (((9 <=? n) && (n <=? 13)) || ((28 <=? n) && (n <=? 32)))%N.

Definition space2 (c1 c2 : ascii) : bool :=
  ((byte_of c1 =? 194) && ((byte_of c2 =? 133) || (byte_of c2 =? 160)))%N.

Definition space3 (c1 c2 c3 : ascii) : bool :=
  let a := byte_of c1 in
  let b := byte_of c2 in
  let c := byte_of c3 in
  (((a =? 225) && (b =? 154) && (c =? 128))
   || ((a =? 226) && (b =? 128)
       && (((128 <=? c) && (c <=? 138)) || (c =? 168) || (c =? 169) || (c =? 175)))
   || ((a =? 226) && (b =? 129) && (c =? 159))
   || ((a =? 227) && (b =? 128) && (c =? 128)))%N.

Fixpoint lstrip (s : string) : string :=
  match s with
  | String c1 r1 =>
      if space1 c1 then lstrip r1
      else match r1 with
           | String c2 r2 =>
               if space2 c1 c2 then lstrip r2
               else match r2 with
                    | String c3 r3 => if space3 c1 c2 c3 then lstrip r3 else s
                    | EmptyString => s
                    end
           | EmptyString => s
           end
  | EmptyString => s
  end.

(** The same scan on the reversed bytes: the last byte of a character first. *)
Fixpoint lstrip_rev (s : string) : string :=
  match s with
  | String c1 r1 =>
      if space1 c1 then lstrip_rev r1
      else match r1 with
           | String c2 r2 =>
               if space2 c2 c1 then lstrip_rev r2
               else match r2 with
                    | String c3 r3 => if space3 c3 c2 c1 then lstrip_rev r3 else s
                    | EmptyString => s
                    end
           | EmptyString => s
           end
  | EmptyString => s
  end.

Definition rstrip (s : string) : string := String.rev (lstrip_rev (String.rev s)).

(** [s.strip()] *)
Definition strip (s : string) : string := rstrip (lstrip s).

(** [s[:n]]: the first [n] code points. *)
Fixpoint take_chars (n : nat) (s : string) : string :=
  match s with
  | EmptyString => EmptyString
  | String c rest =>
      if is_cont c then String c (take_chars n rest)
      else match n with
           | O => EmptyString
           | S n' => String c (take_chars n' rest)
           end
  end.

(** [len(s)]: the number of code points. *)
Fixpoint len_chars (s : string) : nat :=
  match s with
  | EmptyString => O
  | String c rest => if is_cont c then len_chars rest else S (len_chars rest)
  end.

(** [list(s)]: one string per code point. *)
Fixpoint chars_go (cur : option string) (s : string) : list string :=
  match s with
  | EmptyString => option_list (String.rev <$> cur)
  | String c rest =>
      if is_cont c then chars_go (Some (String c (default EmptyString cur))) rest
      else option_list (String.rev <$> cur) ++ chars_go (Some (String c EmptyString)) rest
  end.

Definition chars (s : string) : list string := chars_go None s.

(** [needle in hay] *)
Fixpoint contains (needle hay : string) : bool :=
  String.prefix needle hay
  || match hay with
     | EmptyString => false
     | String _ rest => contains needle rest
     end.

(** [sep.join(parts)] *)
Fixpoint join (sep : string) (parts : list string) : string :=
  match parts with
  | [] => ""
  | [p] => p
  | p :: rest => p +:+ sep +:+ join sep rest
  end.

(** [s.split(',')[1]] for an [s] that holds a comma: what stands between the
    first comma and the next one (or the end). *)
Fixpoint upto_comma (s : string) : string :=
  match s with
  | EmptyString => EmptyString
  | String c rest => if Ascii.eqb c "," then EmptyString else String c (upto_comma rest)
  end.

Fixpoint after_comma (s : string) : string :=
  match s with
  | EmptyString => EmptyString
  | String c rest => if Ascii.eqb c "," then rest else after_comma rest
  end.

Definition split_comma_1 (s : string) : string := upto_comma (after_comma s).

(** [''.join(fragments)], as [full_response += content] builds it. *)
Definition concat_text (fragments : list string) : string :=
  foldr String.app "" fragments.

End Py.

(** ** Texts of the source

    The literals of [app.py], byte for byte. *)

Module Text.

(** chat, the configuration check *)
Definition msg_restart : string :=
  "‚ö†Ô∏è Please restart the system".

(** chat, the history limit *)
Definition msg_limit : string :=
  "‚ö†Ô∏è Maximum conversation limit reached. Please start a new conversation".

(** chat, success *)
Definition msg_received : string :=
  "Data received successfully".

(** chat, the except branch: followed by str(e) *)
Definition msg_server_error : string :=
  "‚ùå Server error: ".

(** chat_stream, no entry under the key *)
Definition msg_invalid_request : string :=
  "‚ö†Ô∏è Invalid or expired request. Please try again".

(** handle_api_error, RateLimitError *)
Definition msg_rate_limit : string :=
  "‚ö†Ô∏è API rate limit exceeded. Please wait and try again".

(** handle_api_error, APIConnectionError *)
Definition msg_connection : string :=
  "‚ö†Ô∏è Connection error. Please check your internet connection".

(** handle_api_error: followed by the status and message, or by str(error) *)
Definition msg_api_error : string :=
  "‚ö†Ô∏è API error: ".

(** handle_api_error, between status_code and message *)
Definition msg_status_sep : string :=
  " - ".

(** generate_response, the outer except: followed by str(e) *)
Definition msg_unexpected : string :=
  "‚ö†Ô∏è Unexpected error: ".

(** generate_response, the current image: followed by str(img_error) *)
Definition msg_image_error : string :=
  "‚ö†Ô∏è Error processing image: ".

(** first thinking event with a scientist: after icon and display_name *)
Definition msg_contemplating : string :=
  " is contemplating this mathematics problem...".

(** first thinking event without a scientist *)
Definition msg_analyzing : string :=
  "üí≠ Analyzing and preparing response...".

(** second thinking event with a scientist: before teaching_style *)
Definition msg_formulating : string :=
  " is formulating a response using ".

(** second thinking event without a scientist *)
Definition msg_processing : string :=
  "üí≠ Processing your question...".

(** an image turn without preview *)
Definition msg_image_unavailable : string :=
  "[Image not available] ".

(** an image turn whose preview cannot be read *)
Definition msg_image_failed : string :=
  "[Error processing image] ".

(** the image_url of an image turn: followed by the base64 part *)
Definition data_url_prefix : string :=
  "data:image/jpeg;base64,".

(** init_openai_client *)
Definition msg_api_key_missing : string :=
  "API key not found. Please set OPENAI_API_KEY in .env file".

(** classroom_context, before display_name *)
Definition classroom_before : string :=
  "
                CLASSROOM SIMULATION CONTEXT:
                - You are teaching in a Thai mathematics classroom as ".

(** classroom_context, after display_name *)
Definition classroom_after : string :=
  "
                - The student is addressing you respectfully as a teacher-student relationship
                - Maintain an educational tone while staying true to your historical personality
                - Use appropriate Thai classroom expressions and academic language
                - When the student seems confused, provide gentle guidance in your distinctive style
                - Express enthusiasm when the student shows understanding or asks insightful questions
                - If the student uses informal language, respond appropriately but maintain your identity
                ".

(** memory_context, piece 0 *)
Definition memory_part0 : string :=
  "
Additional Context:
- Topics previously discussed: ".

(** memory_context, piece 1 *)
Definition memory_part1 : string :=
  "
- Detected misconceptions: ".

(** memory_context, piece 2 *)
Definition memory_part2 : string :=
  "
- Student strengths: ".

(** memory_context, piece 3 *)
Definition memory_part3 : string :=
  "
- Student weaknesses: ".

(** memory_context, piece 4 *)
Definition memory_part4 : string :=
  "
".

(** max_tokens_info, before max_completion_tokens *)
Definition tokens_before : string :=
  "
# Response Length Guidelines
- You have a maximum of ".

(** max_tokens_info, after max_completion_tokens *)
Definition tokens_after : string :=
  " tokens for your response
- Ensure your response is complete and concludes properly
- If approaching token limit, prioritize essential content and provide a proper conclusion
- Never leave a response unfinished; adjust length accordingly
".

(** math_topics, in the order the dict literal lists them *)
Definition math_topics : list (string * list string) :=
  [
    ("Algebra",
      ["algebra"; "equation"; "variable"; "solve"; "‡∏û‡∏µ‡∏ä‡∏Ñ‡∏ì‡∏¥‡∏ï"; "‡∏™‡∏°‡∏Å‡∏≤‡∏£"; "‡∏ï‡∏±‡∏ß‡πÅ‡∏õ‡∏£"]);
    ("Geometry",
      ["geometry"; "shape"; "angle"; "line"; "area"; "volume"; "‡πÄ‡∏£‡∏Ç‡∏≤‡∏Ñ‡∏ì‡∏¥‡∏ï"; "‡∏£‡∏π‡∏õ‡∏£‡πà‡∏≤‡∏á"; "‡∏°‡∏∏‡∏°"; "‡πÄ‡∏™‡πâ‡∏ô"; "‡∏û‡∏∑‡πâ‡∏ô‡∏ó‡∏µ‡πà"; "‡∏õ‡∏£‡∏¥‡∏°‡∏≤‡∏ï‡∏£"]);
    ("Calculus",
      ["derivative"; "integral"; "limit"; "‡πÅ‡∏Ñ‡∏•‡∏Ñ‡∏π‡∏•‡∏±‡∏™"; "‡∏≠‡∏ô‡∏∏‡∏û‡∏±‡∏ô‡∏ò‡πå"; "‡∏õ‡∏£‡∏¥‡∏û‡∏±‡∏ô‡∏ò‡πå"]);
    ("Statistics",
      ["statistics"; "mean"; "median"; "mode"; "deviation"; "‡∏™‡∏ñ‡∏¥‡∏ï‡∏¥"; "‡∏Ñ‡πà‡∏≤‡πÄ‡∏â‡∏•‡∏µ‡πà‡∏¢"; "‡∏°‡∏±‡∏ò‡∏¢‡∏ê‡∏≤‡∏ô"; "‡∏ê‡∏≤‡∏ô‡∏ô‡∏¥‡∏¢‡∏°"]);
    ("Probability",
      ["probability"; "chance"; "random"; "‡∏Ñ‡∏ß‡∏≤‡∏°‡∏ô‡πà‡∏≤‡∏à‡∏∞‡πÄ‡∏õ‡πá‡∏ô"; "‡πÇ‡∏≠‡∏Å‡∏≤‡∏™"; "‡∏™‡∏∏‡πà‡∏°"]);
    ("Trigonometry",
      ["sin"; "cos"; "tan"; "angle"; "trigonometry"; "‡∏ï‡∏£‡∏µ‡πÇ‡∏Å‡∏ì‡∏°‡∏¥‡∏ï‡∏¥"; "‡∏°‡∏∏‡∏°"]);
    ("Number Systems",
      ["integer"; "rational"; "real"; "number"; "‡∏à‡∏≥‡∏ô‡∏ß‡∏ô‡πÄ‡∏ï‡πá‡∏°"; "‡∏à‡∏≥‡∏ô‡∏ß‡∏ô‡∏ï‡∏£‡∏£‡∏Å‡∏¢‡∏∞"; "‡∏à‡∏≥‡∏ô‡∏ß‡∏ô‡∏à‡∏£‡∏¥‡∏á"])
  ].

End Text.

Import Py.

(** ** Exceptions *)

(** The exception classes [handle_api_error] tells apart; [PyError] is any other
    [Exception].  Each carries what [str(e)] gives. *)
Inductive exn :=
| RateLimitError (text : string)
| APIConnectionError (text : string)
| APIStatusError (status_code : Z) (message : string)
| PyError (text : string).

Definition exn_str (e : exn) : string :=
  match e with
  | RateLimitError text => text
  | APIConnectionError text => text
  | APIStatusError _ message => message
  | PyError text => text
  end.

(** What the interpreter itself raises on the paths below. *)
Inductive pyerr :=
| KeyError (key : string)                 (* d[key], key absent *)
| IndexError                              (* l[i], i out of range *)
| Unhashable (v : pyval)                  (* v in a_dict, v a list or dict *)
| BadSubscript (v : pyval)                (* v['k'], v not a dict *)
| JoinError (v : pyval)                   (* ', '.join(v) *)
| ConcatError (v : pyval)                 (* v + a_str, v not a str *)
| NoAttribute (v : pyval) (attr : string) (* v.attr *)
| NotContainer (v : pyval)                (* x in v *)
| NoLen (v : pyval).                      (* len(v) *)

Inductive result (A : Type) : Type :=
| Ok (a : A)
| Raise (e : exn).

Arguments Ok {A} a.
Arguments Raise {A} e.

#[global] Instance result_ret : MRet result := @Ok.

#[global] Instance result_bind : MBind result :=
  fun A B f m => match m with Ok a => f a | Raise e => Raise e end.

(** ** The model provider's interface (openai) *)

Inductive content_part :=
| ImageUrl (url : string)
| TextPart (text : pyval).

Inductive message_content :=
| Plain (s : string)
| Parts (ps : list content_part).

Record api_message := { role : string; content : message_content }.

Record api_request := {
  model : string;
  messages : list api_message;
  max_completion_tokens : pyval;
  temperature : pyval;
  stream : bool
}.

(** [chunk.choices[0].delta.content] *)
Record Choice := { delta_content : option string }.

Record ChatCompletionChunk := { choices : list Choice }.

(** What iterating the provider's stream gives: a chunk and the rest, the end,
    or an exception. *)
Inductive upstream :=
| StreamEnd
| StreamChunk (c : ChatCompletionChunk) (rest : upstream)
| StreamRaise (e : exn).

(** ** Requests, responses, events *)

Record ChatMessage := {
  msg_text : string;
  msg_type : option string;
  msg_image_data : option pydict;
  msg_state : option pydict
}.

Record ChatRequest := {
  req_history : list pyval;
  req_api_state : pydict;
  req_grade : string;
  req_topic : string;
  req_message : ChatMessage;
  req_request_id : option string
}.

(** The JSON bodies [chat] and [chat_stream] return. *)
Record JSONBody := {
  status : string;
  message : string;
  request_id : option string
}.

(** The payload of one server-sent event, [json.dumps({'type': ..., ...})]. *)
Inductive event :=
| Thinking (content : string)
| Chunk (content : string)
| Done (content : string) (updated_memory : pyval) (scientist_key : pyval)
| Error (content : string).

Record ScientistProfile := {
  display_name : string;
  icon : string;
  teaching_style : string
}.

(** ** Shared state *)

Definition loc := nat.

(** The dict stored under a key: [history] and [api_state] are references to the
    objects the request was parsed into. *)
Record chat_data := {
  cd_history : loc;
  cd_api_state : loc;
  cd_grade : string;
  cd_topic : string;
  cd_message : ChatMessage;
  cd_timestamp : string
}.

(** [threading.Timer(interval, cleanup_request_data)]: the closure is known by
    the request_id it closes over. *)
Record Timer := { interval : Z; closure_request_id : string }.

Record world := {
  CHAT_REQUESTS : gmap string chat_data;
  lists : gmap loc (list pyval);
  dicts : gmap loc pydict;
  timers : list Timer
}.

Definition with_requests (f : gmap string chat_data -> gmap string chat_data) (w : world) : world :=
  {| CHAT_REQUESTS := f (CHAT_REQUESTS w); lists := lists w; dicts := dicts w; timers := timers w |}.

Definition with_lists (f : gmap loc (list pyval) -> gmap loc (list pyval)) (w : world) : world :=
  {| CHAT_REQUESTS := CHAT_REQUESTS w; lists := f (lists w); dicts := dicts w; timers := timers w |}.

Definition with_dicts (f : gmap loc pydict -> gmap loc pydict) (w : world) : world :=
  {| CHAT_REQUESTS := CHAT_REQUESTS w; lists := lists w; dicts := f (dicts w); timers := timers w |}.

Definition with_timers (f : list Timer -> list Timer) (w : world) : world :=
  {| CHAT_REQUESTS := CHAT_REQUESTS w; lists := lists w; dicts := dicts w; timers := f (timers w) |}.

Definition heap_list (w : world) (l : loc) : list pyval := default [] (lists w !! l).

Definition heap_dict (w : world) (l : loc) : pydict := default [] (dicts w !! l).

(** [l.append(v)] on the list object at [l]. *)
Definition list_append (l : loc) (v : pyval) (w : world) : world :=
  with_lists (insert l (heap_list w l ++ [v])) w.

(** [f'CHAT_REQ_{request_id}'] *)
Definition chat_key (request_id : string) : string := "CHAT_REQ_" +:+ request_id.

(** [CHAT_REQUESTS[key]['history'] = history]: [None] stands for the KeyError. *)
Definition set_entry_history (key : string) (history : loc) (w : world) : option world :=
  match CHAT_REQUESTS w !! key with
  | Some cd =>
      Some (with_requests (insert key
              {| cd_history := history; cd_api_state := cd_api_state cd;
                 cd_grade := cd_grade cd; cd_topic := cd_topic cd;
                 cd_message := cd_message cd; cd_timestamp := cd_timestamp cd |}) w)
  | None => None
  end.

(** [CHAT_REQUESTS[key]['api_state'] = api_state] *)
Definition set_entry_api_state (key : string) (api_state : loc) (w : world) : option world :=
  match CHAT_REQUESTS w !! key with
  | Some cd =>
      Some (with_requests (insert key
              {| cd_history := cd_history cd; cd_api_state := api_state;
                 cd_grade := cd_grade cd; cd_topic := cd_topic cd;
                 cd_message := cd_message cd; cd_timestamp := cd_timestamp cd |}) w)
  | None => None
  end.

(** A generator between two [yield]s: it ran on the shared state up to [w] and
    either yields an event, to be resumed on the state it then finds, or is over. *)
Inductive gstep :=
| Yield (w : world) (e : event) (resume : world -> gstep)
| Return (w : world).

Inductive http_response :=
| JSONResponse (body : JSONBody)
| StreamingResponse (generator : world -> gstep).

(** What the process and the interpreter supply. *)
Record environment := {
  (* the interpreter *)
  py_repr : pyval -> string;        (* str(v), v not a str *)
  py_lower : string -> string;      (* s.lower() *)
  py_errtext : pyerr -> string;     (* str(e) of an exception it raises *)
  (* the module's table of personas *)
  MATHEMATICS_SCIENTISTS : gmap string ScientistProfile;
  (* the process *)
  OPENAI_API_KEY : option string;   (* os.getenv("OPENAI_API_KEY") *)
  time_time : Z;                    (* int(time.time()) *)
  now_isoformat : string;           (* datetime.now().isoformat() *)
  now_hms : string;                 (* datetime.now().strftime("%H:%M:%S") *)
  timer_start : option exn;         (* Timer.start(): an exception when no thread starts *)
  (* client.chat.completions.create(...) *)
  completions_create : api_request -> result upstream
}.

Definition MAX_HISTORY : Z := 20.

Definition DEFAULT_MODEL_ID : string := "gpt-5-chat-latest".

Definition is_stream (r : http_response) : bool :=
  match r with
  | StreamingResponse _ => true
  | JSONResponse _ => false
  end.

(** ** The handlers *)

Section Handlers.

Context (env : environment).

Import Text.

Definition newline : string := String "010" EmptyString.

(** [str(v)], also what an f-string puts for [{v}]. *)
Definition str_of (v : pyval) : string :=
  match v with
  | PStr s => s
  | PInt z => pretty z
  | PNone => "None"
  | PBool true => "True"
  | PBool false => "False"
  | _ => py_repr env v
  end.

Definition raise_py {A : Type} (e : pyerr) : result A :=
  Raise (PyError (py_errtext env e)).

(** [format_error_message]: the message behind a timestamp. *)
Definition format_error_message (message : string) : string :=
  "[" +:+ now_hms env +:+ "] " +:+ message.

(** [handle_api_error].  Its last branch, for an [error] that is no
    [Exception], is never reached from an [except Exception]. *)
Definition handle_api_error (error : exn) : string :=
  match error with
  | RateLimitError _ => msg_rate_limit
  | APIConnectionError _ => msg_connection
  | APIStatusError status_code message =>
      msg_api_error +:+ pretty status_code +:+ msg_status_sep +:+ message
  | PyError text => msg_api_error +:+ text
  end.

(** [init_openai_client(test_connection=False)] *)
Definition init_openai_client : result unit :=
  match OPENAI_API_KEY env with
  | Some api_key =>
      if String.eqb api_key "" then Raise (PyError msg_api_key_missing) else Ok tt
  | None => Raise (PyError msg_api_key_missing)
  end.

Definition error_body (text : string) : JSONBody :=
  {| status := "error"; message := text; request_id := None |}.

(** *** POST /api/chat *)

(** [cleanup_request_data], the closure [chat] hands to the timer. *)
Definition cleanup_request_data (request_id : string) (w : world) : world :=
  match CHAT_REQUESTS w !! chat_key request_id with
  | Some _ => with_requests (delete (chat_key request_id)) w
  | None => w
  end.

(** [chat].  The two blocks on graph and calculator3d messages only log. *)
Definition chat (request_data : ChatRequest) (w : world) : JSONBody * world :=
  let history := req_history request_data in
  let api_state := req_api_state request_data in
  let message := req_message request_data in
  let request_id :=
    match req_request_id request_data with
    | Some s => if String.eqb s "" then pretty (time_time env) else s
    | None => pretty (time_time env)
    end in
  if negb (truthy (PDict api_state))
     || negb (truthy (dict_get_or api_state "is_valid" (PBool false)))
  then (error_body msg_restart, w)
  else if MAX_HISTORY * 2 <=? Z.of_nat (length history)
  then (error_body msg_limit, w)
  else
    let h := fresh (dom (lists w)) in
    let a := fresh (dom (dicts w)) in
    let data :=
      {| cd_history := h; cd_api_state := a;
         cd_grade := req_grade request_data; cd_topic := req_topic request_data;
         cd_message := message; cd_timestamp := now_isoformat env |} in
    let w1 :=
      with_requests (insert (chat_key request_id) data)
        (with_dicts (insert a api_state) (with_lists (insert h history) w)) in
    match timer_start env with
    | None =>
        ({| status := "success"; message := msg_received; request_id := Some request_id |},
         with_timers (cons {| interval := 300; closure_request_id := request_id |}) w1)
    | Some e => (error_body (msg_server_error +:+ exn_str e), w1)
    end.

(** *** The generator of GET /api/chat/stream *)

(** [v == s] for a str [s] *)
Definition is_str (v : pyval) (s : string) : bool :=
  match v with
  | PStr s' => String.eqb s' s
  | _ => false
  end.

(** [scientist_key and scientist_key != 'none' and scientist_key in
    MATHEMATICS_SCIENTISTS], with the profile when it holds. *)
Definition scientist_lookup (scientist_key : pyval) : result (option ScientistProfile) :=
  if truthy scientist_key && negb (is_str scientist_key "none") then
    match scientist_key with
    | PStr k => Ok (MATHEMATICS_SCIENTISTS env !! k)
    | PList _ | PDict _ => raise_py (Unhashable scientist_key)
    | _ => Ok None
    end
  else Ok None.

(** [v[key]] *)
Definition subscript (v : pyval) (key : string) : result pyval :=
  match v with
  | PDict d =>
      match dict_get d key with
      | Some x => Ok x
      | None => raise_py (KeyError key)
      end
  | _ => raise_py (BadSubscript v)
  end.

Definition all_str (items : list pyval) : option (list string) :=
  mapM (fun v => match v with PStr s => Some s | _ => None end) items.

(** [', '.join(v)] *)
Definition join_value (v : pyval) : result string :=
  match v with
  | PList items =>
      match all_str items with
      | Some parts => Ok (join ", " parts)
      | None => raise_py (JoinError v)
      end
  | PStr s => Ok (join ", " (chars s))
  | PDict d => Ok (join ", " (d.*1))
  | _ => raise_py (JoinError v)
  end.

(** [', '.join(conversation_memory[key]) if conversation_memory[key] else 'None yet'] *)
Definition memory_line (conversation_memory : pyval) (key : string) : result string :=
  v ← subscript conversation_memory key;
  if truthy v then join_value v else Ok "None yet".

(** The float [0.6]. *)
Definition default_temperature : float := 0x1.3333333333333p-1%float.

Definition default_memory : pyval :=
  PDict [("topics", PList []); ("user_questions", PList []);
         ("misconceptions", PList []); ("strengths", PList []);
         ("weaknesses", PList [])].

(** The base64 part of a preview. *)
Definition base64_part (preview_base64 : string) : string :=
  if String.prefix "data:image" preview_base64 then
    if contains "," preview_base64 then split_comma_1 preview_base64 else preview_base64
  else preview_base64.

Definition user_says (text : string) : api_message :=
  {| role := "user"; content := Plain text |}.

(** The body of the [try] that turns an image turn into a message. *)
Definition image_message (turn : pydict) : result api_message :=
  let preview_base64 := dict_get_or turn "preview" (PStr "") in
  if truthy preview_base64 then
    match preview_base64 with
    | PStr p =>
        Ok {| role := "user";
              content := Parts [ImageUrl (data_url_prefix +:+ base64_part p);
                                TextPart (dict_get_or turn "text" (PStr ""))] |}
    | v => raise_py (NoAttribute v "startswith")
    end
  else Ok (user_says (msg_image_unavailable +:+ str_of (dict_get_or turn "text" (PStr "")))).

(** One round of the loop over the history: the user's turn, then the bot's. *)
Definition turn_messages (user_msg bot_msg : pyval) : list api_message :=
  (match user_msg with
   | PDict d =>
       if is_image_turn user_msg then
         match image_message d with
         | Ok m => [m]
         | Raise _ => [user_says (msg_image_failed +:+ str_of (dict_get_or d "text" (PStr "")))]
         end
       else [user_says (str_of user_msg)]
   | _ => [user_says (str_of user_msg)]
   end)
  ++ (if truthy bot_msg then [{| role := "assistant"; content := Plain (str_of bot_msg) |}] else []).

(** [for i in range(0, len(history) - 1, 2)] *)
Fixpoint history_messages (history : list pyval) : list api_message :=
  match history with
  | user_msg :: bot_msg :: rest => turn_messages user_msg bot_msg ++ history_messages rest
  | _ => []
  end.

(** [x in v] for a str [x] *)
Definition py_in (x : string) (v : pyval) : result bool :=
  match v with
  | PList items => Ok (existsb (fun item => is_str item x) items)
  | PStr s => Ok (contains x s)
  | PDict d => Ok (bool_decide (is_Some (dict_get d x)))
  | _ => raise_py (NotContainer v)
  end.

(** [len(v)] *)
Definition py_len (v : pyval) : result nat :=
  match v with
  | PList items => Ok (length items)
  | PStr s => Ok (len_chars s)
  | PDict d => Ok (length d)
  | _ => raise_py (NoLen v)
  end.

(** [conversation_memory[field].append(item)] *)
Definition append_field (conversation_memory : pyval) (field : string) (item : pyval)
  : result pyval :=
  target ← subscript conversation_memory field;
  match target, conversation_memory with
  | PList items, PDict d => Ok (PDict (dict_set d field (PList (items ++ [item]))))
  | _, _ => raise_py (NoAttribute target "append")
  end.

(** One round of [for topic, keywords in math_topics.items()]. *)
Definition note_topic (last_user_message : string) (acc : result pyval)
    (entry : string * list string) : result pyval :=
  conversation_memory ← acc;
  if existsb (fun keyword => contains keyword last_user_message) entry.2 then
    topics ← subscript conversation_memory "topics";
    present ← py_in entry.1 topics;
    if (present : bool) then Ok conversation_memory
    else append_field conversation_memory "topics" (PStr entry.1)
  else Ok conversation_memory.

(** The update of the conversation memory after a response. *)
Definition update_memory (conversation_memory last_user_message : pyval) : result pyval :=
  match last_user_message with
  | PStr s =>
      let lowered := py_lower env s in
      cm ← foldl (note_topic lowered) (Ok conversation_memory) math_topics;
      questions ← subscript cm "user_questions";
      n ← py_len questions;
      if (n <? 5)%nat then append_field cm "user_questions" (PStr (take_chars 100 lowered))
      else Ok cm
  | _ => Ok conversation_memory
  end.

(** What the second segment of the generator ends in, short of an exception. *)
Inductive prepared :=
| ImageFailed (content : string)
| Ready (conversation_memory : pyval) (request : api_request).

Section Generator.

(** The variables [generate_response] closes over. *)
Variables (request_id : string) (history api_state : loc).

(** [finally]: delete the entry if it is there. *)
Definition finally_ (w : world) : gstep :=
  Return (match CHAT_REQUESTS w !! chat_key request_id with
          | Some _ => with_requests (delete (chat_key request_id)) w
          | None => w
          end).

(** The outer [except Exception as e]. *)
Definition outer_except (e : exn) (w : world) : gstep :=
  let error_msg := format_error_message (msg_unexpected +:+ exn_str e) in
  let w1 :=
    match CHAT_REQUESTS w !! chat_key request_id with
    | Some data => list_append (cd_history data) (PStr error_msg) w
    | None => w
    end in
  Yield w1 (Error error_msg) finally_.

(** The inner [except Exception as api_error]; a KeyError of its own goes to
    the outer handler. *)
Definition inner_except (api_error : exn) (w : world) : gstep :=
  let error_msg := handle_api_error api_error in
  let w1 := list_append history (PStr error_msg) w in
  match set_entry_history (chat_key request_id) history w1 with
  | Some w2 => Yield w2 (Error error_msg) finally_
  | None => outer_except (PyError (py_errtext env (KeyError (chat_key request_id)))) w1
  end.

(** From the end of the provider's stream to the [done] event: the state the
    statements leave, and the updated memory or the exception that stopped them.
    [conversation_memory] is the value read in [prepare]; its update reaches the
    shared [api_state] at [api_state["conversation_memory"] = ...].  What an
    exception in the middle of the update has already appended to the nested
    lists is not kept: no event and no later statement of this generator reads it. *)
Definition after_stream (conversation_memory : pyval) (full_response : string) (w : world)
  : world * result pyval :=
  let w1 := list_append history (PStr full_response) w in
  let now := heap_list w1 history in
  match now !! (length now - 2)%nat, (2 <=? length now)%nat with
  | Some last_user_message, true =>
      match update_memory conversation_memory last_user_message with
      | Ok cm =>
          let w2 :=
            with_dicts (insert api_state
                          (dict_set (heap_dict w1 api_state) "conversation_memory" cm)) w1 in
          match set_entry_history (chat_key request_id) history w2 with
          | Some w3 =>
              match set_entry_api_state (chat_key request_id) api_state w3 with
              | Some w4 => (w4, Ok cm)
              | None => (w3, raise_py (KeyError (chat_key request_id)))
              end
          | None => (w2, raise_py (KeyError (chat_key request_id)))
          end
      | Raise e => (w1, Raise e)
      end
  | _, _ => (w1, raise_py IndexError)
  end.

Definition complete (scientist_key conversation_memory : pyval) (full_response : string)
    (w : world) : gstep :=
  match after_stream conversation_memory full_response w with
  | (w', Ok cm) => Yield w' (Done full_response cm scientist_key) finally_
  | (w', Raise e) => inner_except e w'
  end.

(** [for chunk in stream]: one [chunk] event per fragment that is not None. *)
Fixpoint relay (scientist_key conversation_memory : pyval) (stream : upstream)
    (full_response : string) (w : world) : gstep :=
  match stream with
  | StreamChunk chunk rest =>
      match choices chunk with
      | choice :: _ =>
          match delta_content choice with
          | Some content =>
              Yield w (Chunk content)
                (relay scientist_key conversation_memory rest (full_response +:+ content))
          | None => relay scientist_key conversation_memory rest full_response w
          end
      | [] => inner_except (PyError (py_errtext env IndexError)) w
      end
  | StreamEnd => complete scientist_key conversation_memory full_response w
  | StreamRaise e => inner_except e w
  end.

(** From the first [thinking] event to the second: settings, the system
    prompt, the client and the message list. *)
Definition prepare (classroom_context : string) (w : world) : result prepared :=
  let st := heap_dict w api_state in
  let temperature := dict_get_or st "temperature" (PFloat default_temperature) in
  let max_completion_tokens := dict_get_or st "max_completion_tokens" (PInt 1200) in
  let system_prompt := dict_get_or st "system_prompt" (PStr "") in
  let conversation_memory := dict_get_or st "conversation_memory" default_memory in
  topics ← memory_line conversation_memory "topics";
  misconceptions ← memory_line conversation_memory "misconceptions";
  strengths ← memory_line conversation_memory "strengths";
  weaknesses ← memory_line conversation_memory "weaknesses";
  let memory_context :=
    memory_part0 +:+ topics +:+ memory_part1 +:+ misconceptions +:+ memory_part2
    +:+ strengths +:+ memory_part3 +:+ weaknesses +:+ memory_part4 in
  let max_tokens_info := tokens_before +:+ str_of max_completion_tokens +:+ tokens_after in
  enhanced_system_prompt ←
    match system_prompt with
    | PStr s =>
        Ok (s +:+ newline +:+ newline +:+ memory_context +:+ newline +:+ newline
            +:+ classroom_context +:+ newline +:+ newline +:+ max_tokens_info)
    | v => raise_py (ConcatError v)
    end;
  _ ← init_openai_client;
  let now := heap_list w history in
  let request_of (msgs : list api_message) :=
    {| model := DEFAULT_MODEL_ID; messages := msgs;
       max_completion_tokens := max_completion_tokens;
       temperature := temperature; stream := true |} in
  let msgs :=
    {| role := "system"; content := Plain enhanced_system_prompt |} :: history_messages now in
  current_msg ← match last now with Some v => Ok v | None => raise_py IndexError end;
  match current_msg with
  | PDict d =>
      if is_image_turn current_msg then
        match image_message d with
        | Ok m => Ok (Ready conversation_memory (request_of (msgs ++ [m])))
        | Raise img_error => Ok (ImageFailed (msg_image_error +:+ exn_str img_error))
        end
      else Ok (Ready conversation_memory (request_of (msgs ++ [user_says (str_of current_msg)])))
  | _ => Ok (Ready conversation_memory (request_of (msgs ++ [user_says (str_of current_msg)])))
  end.

(** [generate_response].  The test on [scientist_key] before the second
    [thinking] event is the one before the first, on the same value and the same
    table: [scientist] stands for its outcome in both places. *)
Definition generate_response (w : world) : gstep :=
  let scientist_key := dict_get_or (heap_dict w api_state) "scientist_key" (PStr "none") in
  match scientist_lookup scientist_key with
  | Raise e => outer_except e w
  | Ok scientist =>
      let classroom_context :=
        match scientist with
        | Some s => classroom_before +:+ display_name s +:+ classroom_after
        | None => ""
        end in
      let thinking_message :=
        match scientist with
        | Some s => icon s +:+ " " +:+ display_name s +:+ msg_contemplating
        | None => msg_analyzing
        end in
      Yield w (Thinking thinking_message) (fun w1 =>
        match prepare classroom_context w1 with
        | Raise e => outer_except e w1
        | Ok (ImageFailed content) => Yield w1 (Error content) finally_
        | Ok (Ready conversation_memory request) =>
            let thinking_prompt :=
              match scientist with
              | Some s =>
                  icon s +:+ " " +:+ display_name s +:+ msg_formulating
                  +:+ teaching_style s +:+ "..."
              | None => msg_processing
              end in
            Yield w1 (Thinking thinking_prompt) (fun w2 =>
              match completions_create env request with
              | Ok stream => relay scientist_key conversation_memory stream "" w2
              | Raise e => inner_except e w2
              end)
        end)
  end.

End Generator.

(** *** GET /api/chat/stream *)

(** The turn [chat_stream] appends for the new message. *)
Definition user_message_of (user_text : string) (image_data : option pydict) : pyval :=
  match image_data with
  | Some (item :: items) =>
      let d := item :: items in
      PDict [("type", PStr "image"); ("text", PStr user_text);
             ("preview", dict_get_or d "preview" (PStr ""));
             ("file_name", dict_get_or d "file_name" (PStr ""))]
  | _ => PStr user_text
  end.

(** [chat_stream].  The stored message is the dict [chat] made of it, so the
    [hasattr(message, 'text')] branch is not the one taken. *)
Definition chat_stream (request_id : string) (w : world) : http_response * world :=
  match (if String.eqb request_id "" then None
         else CHAT_REQUESTS w !! chat_key request_id) with
  | None => (JSONResponse (error_body msg_invalid_request), w)
  | Some data =>
      let history := cd_history data in
      let api_state := cd_api_state data in
      let message := cd_message data in
      let user_text := strip (msg_text message) in
      let image_data := msg_image_data message in
      let appended := list_append history (user_message_of user_text image_data) w in
      let w' :=
        match last (heap_list w history) with
        | Some turn =>
            if is_image_turn turn then w
            else if is_str turn user_text then w
            else appended
        | None => appended
        end in
      (StreamingResponse (generate_response request_id history api_state), w')
  end.

(** *** Running a generator *)

(** The server iterates the generator to its end and sends each event; [others
    n] is what the rest of the process did to the shared state while the
    generator was suspended at its [n]-th [yield]. *)
Fixpoint drive (others : nat -> world -> world) (n : nat) (g : gstep) : list event * world :=
  match g with
  | Yield w e resume =>
      let '(events, final) := drive others (S n) (resume (others n w)) in
      (e :: events, final)
  | Return w => ([], w)
  end.

Definition idle : nat -> world -> world := fun _ w => w.

End Handlers.

(** ** Editing a history: POST /api/retry_last, /api/undo_last, /api/clear_chat *)

(** The bodies these endpoints return: [{"status": "success", "history": ...}]
    or [{"status": "error", "message": ...}]. *)
Inductive history_response :=
| HistorySuccess (history : list pyval)
| HistoryError (message : string).

(** [l.pop()] *)
Definition pop (l : list pyval) : result (list pyval) :=
  match l with
  | [] => Raise (PyError "pop from empty list")
  | _ :: _ => Ok (removelast l)
  end.

(** [retry_last] *)
Definition retry_last (history : list pyval) : history_response :=
  match
    (if (length history <? 2)%nat then Ok (HistoryError "No previous message to retry")
     else
       history ← (if (length history mod 2 =? 0)%nat then pop history else Ok history);
       Ok (HistorySuccess history))
  with
  | Ok response => response
  | Raise e => HistoryError ("Error retrying last message: " +:+ exn_str e)
  end.

(** [undo_last] *)
Definition undo_last (history : list pyval) : history_response :=
  match
    (if negb (truthy (PList history)) then Ok (HistoryError "No messages to undo")
     else
       history ←
         (if (length history mod 2 =? 0)%nat
          then history ← pop history; pop history
          else pop history);
       Ok (HistorySuccess history))
  with
  | Ok response => response
  | Raise e => HistoryError ("Error undoing last message: " +:+ exn_str e)
  end.

(** [clear_chat] *)
Definition clear_chat : history_response := HistorySuccess [].

(** ** Saved widget states: /api/save_graph, /api/load_graph and their siblings

    The four widgets (graph, geometry, 3D graph, tiles) have the same two
    handlers over directories of their own.  The disk maps a path to what is
    there: a file or a directory.  What [json.dump] wrote, [json.load] reads
    back; any other text it rejects. *)

Inductive file :=
| JsonFile (document : pyval)
| OtherFile (text : string)
| Directory.

Record GraphSaveRequest := {
  gs_state : pydict;
  gs_id : option string;
  gs_title : option string
}.

(** What a load handler ends in: a JSON body, or the [HTTPException] it raises
    and re-raises. *)
Inductive load_response :=
| LoadBody (body : pyval)
| HTTPException (status_code : Z) (detail : string).

(** What the operating system and [json] answer to the calls of one request.
    Whether a call succeeds is the system's answer; a call that succeeds has
    its effect on the disk, and one that fails after an earlier call succeeded
    leaves that call's effect behind. *)
Record io := {
  parent_error : option exn;         (* os.mkdir("static") failing *)
  mkdir_error : option exn;          (* os.mkdir of the widget's directory failing *)
  open_error : option exn;           (* open(path, 'w') failing *)
  dump_error : option (exn * file);  (* json.dump or the closing failing, and
                                        what the opened file is left as *)
  read_error : option exn;           (* open(path, 'r') failing *)
  decode_error : string -> exn;      (* json.load on a text that is no JSON *)
  directory_error : string -> exn    (* reading a path that is a directory *)
}.

(** The first failure of a write, if any of its four calls fails. *)
Definition write_error (sys : io) : option exn :=
  match parent_error sys, mkdir_error sys, open_error sys with
  | Some e, _, _ => Some e
  | None, Some e, _ => Some e
  | None, None, Some e => Some e
  | None, None, None => fst <$> dump_error sys
  end.

(** [os.path.join(a, b)] on POSIX, for an [a] that does not end in a slash. *)
Definition path_join (a b : string) : string :=
  if String.prefix "/" b then b else a +:+ "/" +:+ b.

Definition error_dict (text : string) : pyval :=
  PDict [("status", PStr "error"); ("message", PStr text)].

(** The document a save handler writes. *)
Definition saved_document (env : environment) (request_data : GraphSaveRequest)
    (id : string) : pyval :=
  PDict [("state", PDict (gs_state request_data));
         ("title", match gs_title request_data with Some t => PStr t | None => PNone end);
         ("created_at", PStr (now_isoformat env)); ("id", PStr id)].

Section Storage.

Context (env : environment) (sys : io).

(** [os.makedirs(dir, exist_ok=True)] for a [dir] one level under "static":
    the parent is made when nothing is there, then the directory itself, and a
    directory that is there already is passed over. *)
Definition makedirs (dir : string) (disk : gmap string file)
  : gmap string file * result unit :=
  match disk !! "static", parent_error sys with
  | None, Some e => (disk, Raise e)
  | found, _ =>
      let disk1 :=
        match found with
        | Some _ => disk
        | None => <["static" := Directory]> disk
        end in
      match disk1 !! dir with
      | Some Directory => (disk1, Ok tt)
      | _ =>
          match mkdir_error sys with
          | Some e => (disk1, Raise e)
          | None => (<[dir := Directory]> disk1, Ok tt)
          end
      end
  end.

(** [with open(path, 'w') as f: json.dump(document, f)]: opening empties the
    file, and a failure after that leaves what had reached it. *)
Definition write_json (path : string) (document : pyval) (disk : gmap string file)
  : gmap string file * result unit :=
  match open_error sys with
  | Some e => (disk, Raise e)
  | None =>
      match dump_error sys with
      | Some (e, remains) => (<[path := remains]> disk, Raise e)
      | None => (<[path := JsonFile document]> disk, Ok tt)
      end
  end.

(** The body shared by the four save handlers: [subdir] is the directory under
    [static], [default_prefix] starts a generated id, [success] is the body
    returned for an id, [what] is how the messages name the widget. *)
Definition save_state (subdir default_prefix no_state what : string)
    (success : string -> pyval) (request_data : GraphSaveRequest)
    (disk : gmap string file) : pyval * gmap string file :=
  let state := gs_state request_data in
  let id :=
    match gs_id request_data with
    | Some s => if String.eqb s "" then default_prefix +:+ pretty (time_time env) else s
    | None => default_prefix +:+ pretty (time_time env)
    end in
  let failed (e : exn) := error_dict ("Error saving " +:+ what +:+ ": " +:+ exn_str e) in
  if negb (truthy (PDict state)) then (error_dict no_state, disk)
  else
    let dir := path_join "static" subdir in
    match makedirs dir disk with
    | (disk1, Raise e) => (failed e, disk1)
    | (disk1, Ok _) =>
        let path := path_join dir (id +:+ ".json") in
        match write_json path (saved_document env request_data id) disk1 with
        | (disk2, Raise e) => (failed e, disk2)
        | (disk2, Ok _) => (success id, disk2)
        end
    end.

(** The body shared by the four load handlers. *)
Definition load_state (subdir not_found what : string) (id : string)
    (disk : gmap string file) : load_response :=
  let path := path_join (path_join "static" subdir) (id +:+ ".json") in
  match disk !! path with
  | None => HTTPException 404 not_found
  | Some f =>
      match read_error sys with
      | Some e => LoadBody (error_dict ("Error loading " +:+ what +:+ ": " +:+ exn_str e))
      | None =>
          match f with
          | JsonFile data => LoadBody (PDict [("status", PStr "success"); ("data", data)])
          | OtherFile text =>
              LoadBody (error_dict ("Error loading " +:+ what +:+ ": "
                                    +:+ exn_str (decode_error sys text)))
          | Directory =>
              LoadBody (error_dict ("Error loading " +:+ what +:+ ": "
                                    +:+ exn_str (directory_error sys path)))
          end
      end
  end.

Definition save_graph : GraphSaveRequest -> gmap string file -> pyval * gmap string file :=
  save_state "graphs" "graph_" "No graph state provided" "graph"
    (fun id => PDict [("status", PStr "success"); ("message", PStr "Graph saved successfully");
                      ("graph_id", PStr id);
                      ("graph_url", PStr ("/static/graphs/" +:+ id +:+ ".json"))]).

Definition load_graph : string -> gmap string file -> load_response :=
  load_state "graphs" "Graph not found" "graph".

Definition save_geometry : GraphSaveRequest -> gmap string file -> pyval * gmap string file :=
  save_state "geometries" "geometry_" "No geometry state provided" "geometry"
    (fun id => PDict [("status", PStr "success");
                      ("message", PStr "Geometry saved successfully");
                      ("geometry_id", PStr id);
                      ("geometry_url", PStr ("/static/geometries/" +:+ id +:+ ".json"))]).

Definition load_geometry : string -> gmap string file -> load_response :=
  load_state "geometries" "Geometry not found" "geometry".

Definition save_3d_graph : GraphSaveRequest -> gmap string file -> pyval * gmap string file :=
  save_state "graphs3d" "graph3d_" "No 3D graph state provided" "3D graph"
    (fun id => PDict [("status", PStr "success"); ("id", PStr id);
                      ("message", PStr "3D Graph saved successfully")]).

Definition load_3d_graph : string -> gmap string file -> load_response :=
  load_state "graphs3d" "3D Graph not found" "3D graph".

Definition save_tiles : GraphSaveRequest -> gmap string file -> pyval * gmap string file :=
  save_state "tiles" "tiles_" "No tiles state provided" "tiles"
    (fun id => PDict [("status", PStr "success"); ("message", PStr "Tiles saved successfully");
                      ("tiles_id", PStr id);
                      ("tiles_url", PStr ("/static/tiles/" +:+ id +:+ ".json"))]).

Definition load_tiles : string -> gmap string file -> load_response :=
  load_state "tiles" "Tiles not found" "tiles".

End Storage.

(** [body[key]] of a JSON body *)
Definition py_field (body : pyval) (key : string) : option pyval :=
  match body with
  | PDict d => dict_get d key
  | _ => None
  end.

(** ** Runs and what is read off them *)

Definition is_terminal (e : event) : bool :=
  match e with
  | Done _ _ _ | Error _ => true
  | Thinking _ | Chunk _ => false
  end.

(** The contents of the [chunk] events, in the order of emission. *)
Definition chunk_contents (events : list event) : list string :=
  omap (fun e => match e with Chunk content => Some content | _ => None end) events.

(** The text fragments a provider's stream delivers, in the order of arrival. *)
Fixpoint fragments (stream : upstream) : list string :=
  match stream with
  | StreamChunk chunk rest =>
      match choices chunk with
      | choice :: _ =>
          match delta_content choice with
          | Some content => content :: fragments rest
          | None => fragments rest
          end
      | [] => []
      end
  | StreamEnd | StreamRaise _ => []
  end.

Section Runs.

Context (env : environment).

Import Text.

(** The three ways the generator words an [error] event. *)
Definition error_wording (content : string) : Prop :=
  (exists e, content = handle_api_error e)
  \/ (exists e, content = format_error_message env (msg_unexpected +:+ exn_str e))
  \/ (exists e, content = msg_image_error +:+ exn_str e).

(** How a stream ends: [done] with the response, or [error]. *)
Inductive ending : event -> Prop :=
| ending_done content memory key : ending (Done content memory key)
| ending_error content : error_wording content -> ending (Error content).

Variable request_id : string.

(** A run that is one last event and the [finally] clause. *)
Definition closes (t : event) (r : list event * world) : Prop :=
  r.1 = [t] /\ CHAT_REQUESTS r.2 !! chat_key request_id = None.

(** What a run of the relay loop looks like: the fragments it passed on, as
    [chunk] events, then one last event.  With [done], every fragment of the
    stream was passed on and the content is the text accumulated. *)
Definition relayed (stream : upstream) (full_response : string) (r : list event * world)
  : Prop :=
  exists cs t,
    r.1 = (Chunk <$> cs) ++ [t]
    /\ CHAT_REQUESTS r.2 !! chat_key request_id = None
    /\ ending t
    /\ forall content memory sk,
         t = Done content memory sk ->
         cs = fragments stream /\ content = full_response +:+ concat_text cs.

(** The provider's stream behind a run: the generator, resumed after its first
    [thinking] event on some state, prepared [request], and the provider
    answered it with [stream]. *)
Definition answered (history api_state : loc) (stream : upstream) : Prop :=
  exists classroom_context w conversation_memory request,
    prepare env history api_state classroom_context w = Ok (Ready conversation_memory request)
    /\ completions_create env request = Ok stream.

(** What a run of the whole generator looks like. *)
Definition streamed (history api_state : loc) (r : list event * world) : Prop :=
  exists ts cs t,
    r.1 = (Thinking <$> ts) ++ (Chunk <$> cs) ++ [t]
    /\ CHAT_REQUESTS r.2 !! chat_key request_id = None
    /\ ending t
    /\ forall content memory sk,
         t = Done content memory sk ->
         content = concat_text cs
         /\ exists stream, answered history api_state stream /\ cs = fragments stream.

End Runs.

(** ** A concrete environment

    An interpreter and a process to evaluate the handlers on: ASCII lowering,
    CPython's wording of its errors, an empty persona table, and a provider
    that streams two fragments around an empty delta. *)

Module Demo.

Definition lower_ascii (c : ascii) : ascii :=
  if ((65 <=? byte_of c) && (byte_of c <=? 90))%N
  then ascii_of_N (byte_of c + 32) else c.

Fixpoint lower (s : string) : string :=
  match s with
  | EmptyString => EmptyString
  | String c rest => String (lower_ascii c) (lower rest)
  end.

Definition type_name (v : pyval) : string :=
  match v with
  | PNone => "NoneType"
  | PBool _ => "bool"
  | PInt _ => "int"
  | PFloat _ => "float"
  | PStr _ => "str"
  | PList _ => "list"
  | PDict _ => "dict"
  end.

Definition errtext (e : pyerr) : string :=
  match e with
  | KeyError key => "'" +:+ key +:+ "'"
  | IndexError => "list index out of range"
  | Unhashable v => "unhashable type: '" +:+ type_name v +:+ "'"
  | BadSubscript v => "'" +:+ type_name v +:+ "' object is not subscriptable"
  | JoinError _ => "can only join an iterable"
  | ConcatError v => "unsupported operand type(s) for +: '" +:+ type_name v +:+ "' and 'str'"
  | NoAttribute v attr =>
      "'" +:+ type_name v +:+ "' object has no attribute '" +:+ attr +:+ "'"
  | NotContainer v => "argument of type '" +:+ type_name v +:+ "' is not iterable"
  | NoLen v => "object of type '" +:+ type_name v +:+ "' has no len()"
  end.

Definition fragment (content : option string) : ChatCompletionChunk :=
  {| choices := [{| delta_content := content |}] |}.

Definition hello : upstream :=
  StreamChunk (fragment (Some "Hel"))
    (StreamChunk (fragment None) (StreamChunk (fragment (Some "lo")) StreamEnd)).

Definition env : environment :=
  {| py_repr := fun v => "<" +:+ type_name v +:+ ">";
     py_lower := lower;
     py_errtext := errtext;
     MATHEMATICS_SCIENTISTS := ∅;
     OPENAI_API_KEY := Some "sk-demo";
     time_time := 1700000000;
     now_isoformat := "2023-11-14T22:13:20";
     now_hms := "22:13:20";
     timer_start := None;
     completions_create := fun _ => Ok hello |}.

(** The same process with a provider that fails, and with no thread to spare. *)
Definition env_failing (e : exn) : environment :=
  {| py_repr := py_repr env; py_lower := lower; py_errtext := errtext;
     MATHEMATICS_SCIENTISTS := ∅; OPENAI_API_KEY := Some "sk-demo";
     time_time := 1700000000; now_isoformat := "2023-11-14T22:13:20";
     now_hms := "22:13:20"; timer_start := None;
     completions_create := fun _ => Raise e |}.

Definition env_no_thread : environment :=
  {| py_repr := py_repr env; py_lower := lower; py_errtext := errtext;
     MATHEMATICS_SCIENTISTS := ∅; OPENAI_API_KEY := Some "sk-demo";
     time_time := 1700000000; now_isoformat := "2023-11-14T22:13:20";
     now_hms := "22:13:20"; timer_start := Some (PyError "can't start new thread");
     completions_create := fun _ => Ok hello |}.

Definition empty_world : world :=
  {| CHAT_REQUESTS := ∅; lists := ∅; dicts := ∅; timers := [] |}.

Definition usable : pydict := [("is_valid", PBool true); ("system_prompt", PStr "You are PLAMA.")].

Definition says (text : string) : ChatMessage :=
  {| msg_text := text; msg_type := Some "text"; msg_image_data := None; msg_state := None |}.

Definition submission (history : list pyval) (api_state : pydict) (text : string)
    (id : option string) : ChatRequest :=
  {| req_history := history; req_api_state := api_state; req_grade := "M.1";
     req_topic := "algebra"; req_message := says text; req_request_id := id |}.

(** One submission staged under the key of "r1". *)
Definition staged : world :=
  (chat env (submission [] usable "solve x+1=2" (Some "r1")) empty_world).2.

Definition staged_data : chat_data :=
  {| cd_history := 0%nat; cd_api_state := 0%nat; cd_grade := "M.1"; cd_topic := "algebra";
     cd_message := says "solve x+1=2"; cd_timestamp := "2023-11-14T22:13:20" |}.

(** The events of a response, when it is a stream the server runs undisturbed. *)
Definition events_of (r : http_response * world) : list event :=
  match r.1 with
  | StreamingResponse g => (drive idle 0 (g r.2)).1
  | JSONResponse _ => []
  end.

End Demo.

(** ** A disk and a widget state to evaluate the storage handlers on *)

Definition disk_quiet : io :=
  {| parent_error := None; mkdir_error := None; open_error := None; dump_error := None;
     read_error := None; decode_error := fun _ => PyError "Expecting value";
     directory_error := fun _ => PyError "[Errno 21] Is a directory" |}.

Definition parabola : GraphSaveRequest :=
  {| gs_state := [("expressions", PList [PStr "y=x^2"])]; gs_id := None;
     gs_title := Some "Untitled Graph" |}.

(** A provider whose stream breaks after one fragment. *)
Definition interrupted : upstream :=
  StreamChunk (Demo.fragment (Some "Hel")) (StreamRaise (APIConnectionError "Connection error.")).

Definition env_interrupted : environment :=
  {| py_repr := py_repr Demo.env; py_lower := Demo.lower; py_errtext := Demo.errtext;
     MATHEMATICS_SCIENTISTS := ∅; OPENAI_API_KEY := Some "sk-demo";
     time_time := 1700000000; now_isoformat := "2023-11-14T22:13:20";
     now_hms := "22:13:20"; timer_start := None;
     completions_create := fun _ => Ok interrupted |}.

(** A submission with one exchange behind it, staged and opened. *)
Definition answered_three : world :=
  (chat_stream Demo.env "r1"
     (chat Demo.env
        (Demo.submission [PStr "what is x?"; PStr "Let us see."] Demo.usable "so x = 1?"
           (Some "r1")) Demo.empty_world).2).2.

(** The request [prepare] builds on it. *)
Definition prepared_request : api_request :=
  match prepare Demo.env 0%nat 0%nat "" answered_three with
  | Ok (Ready _ request) => request
  | _ => {| model := ""; messages := []; max_completion_tokens := PNone;
            temperature := PNone; stream := false |}
  end.

(** ** Invariants of a generator and failures of a stream *)

(** Every segment of the generator, resumed on a state where [I] holds, hands
    over a state where [I] holds. *)
Inductive keeps (I : world -> Prop) : gstep -> Prop :=
| keeps_return w : I w -> keeps I (Return w)
| keeps_yield w e resume :
    I w -> (forall w', I w' -> keeps I (resume w')) -> keeps I (Yield w e resume).

(** The exception that stops the iteration of a provider's stream, if any: the
    one the provider raises, or the IndexError of a chunk without choices. *)
Fixpoint failure (env : environment) (stream : upstream) : option exn :=
  match stream with
  | StreamEnd => None
  | StreamChunk chunk rest =>
      match choices chunk with
      | [] => Some (PyError (py_errtext env IndexError))
      | _ :: _ => failure env rest
      end
  | StreamRaise e => Some e
  end.

(** The [error] event of a write-back that finds no entry under the key. *)
Definition gone (env : environment) (request_id : string) : event :=
  Error (format_error_message env
           (Text.msg_unexpected +:+ py_errtext env (KeyError (chat_key request_id)))).

(** ** What holds at the [yield]s, and where the exceptions come from *)

(** [P] holds of the shared state each time the generator is suspended at a
    [yield], as long as the rest of the process hands the state back with [P]. *)
Inductive at_yields (P : world -> Prop) : gstep -> Prop :=
| at_yields_return w : at_yields P (Return w)
| at_yields_yield w e resume :
    P w -> (forall w', P w' -> at_yields P (resume w')) -> at_yields P (Yield w e resume).

(** The entry of [request_id] is in the table. *)
Definition pending (request_id : string) (w : world) : Prop :=
  is_Some (CHAT_REQUESTS w !! chat_key request_id).

Section Caught.

Context (env : environment).

Variables (request_id : string) (history api_state : loc).

(** The exceptions the inner [try] of the generator stops on, for a request
    that [prepare] built: the provider refusing the call, the iteration of its
    stream breaking, or, the stream relayed to its end, a statement between
    that end and the [done] event failing. *)
Definition inner_raises (e : exn) : Prop :=
  exists classroom_context w conversation_memory request,
    prepare env history api_state classroom_context w
    = Ok (Ready conversation_memory request)
    /\ (completions_create env request = Raise e
        \/ exists stream,
             completions_create env request = Ok stream
             /\ (failure env stream = Some e
                 \/ (failure env stream = None
                     /\ exists w',
                          (after_stream env request_id history api_state
                             conversation_memory (concat_text (fragments stream)) w').2
                          = Raise e))).

(** The exceptions that reach the outer handler: the persona lookup or the
    preparation of the request failing, or the KeyError of the inner handler's
    own write-back on a table without the entry. *)
Definition outer_raises (e : exn) : Prop :=
  (exists w,
     scientist_lookup env (dict_get_or (heap_dict w api_state) "scientist_key" (PStr "none"))
     = Raise e)
  \/ (exists classroom_context w,
        prepare env history api_state classroom_context w = Raise e)
  \/ (e = PyError (py_errtext env (KeyError (chat_key request_id)))
      /\ exists w, set_entry_history (chat_key request_id) history w = None).

(** The exception of the [try] around the image of the current turn. *)
Definition image_raises (e : exn) : Prop :=
  exists w turn,
    last (heap_list w history) = Some (PDict turn)
    /\ is_image_turn (PDict turn) = true
    /\ image_message env turn = Raise e.

(** The content of an [error] event, by the handler that words it and the
    exception that handler caught. *)
Definition reported (content : string) : Prop :=
  (exists e,
     inner_raises e
     /\ content
        = match e with
          | RateLimitError _ => Text.msg_rate_limit
          | APIConnectionError _ => Text.msg_connection
          | APIStatusError status_code text =>
              Text.msg_api_error +:+ pretty status_code +:+ Text.msg_status_sep +:+ text
          | PyError _ => Text.msg_api_error +:+ exn_str e
          end)
  \/ (exists e,
        outer_raises e
        /\ content = "[" +:+ now_hms env +:+ "] " +:+ Text.msg_unexpected +:+ exn_str e)
  \/ (exists e, image_raises e /\ content = Text.msg_image_error +:+ exn_str e).

End Caught.

(** * Properties *)

(** ** Text *)

Lemma text_app_cons (c : ascii) (s t : string) : String c s +:+ t = String c (s +:+ t).
Proof. reflexivity. Qed.

Lemma text_app_nil_r (s : string) : s +:+ "" = s.
Proof. induction s as [|c s IH]; [reflexivity|]. by rewrite text_app_cons, IH. Qed.

Lemma text_app_assoc (s t u : string) : (s +:+ t) +:+ u = s +:+ (t +:+ u).
Proof. induction s as [|c s IH]; [reflexivity|]. by rewrite !text_app_cons, IH. Qed.

Lemma concat_text_cons (c : string) (cs : list string) :
  concat_text (c :: cs) = c +:+ concat_text cs.
Proof. reflexivity. Qed.

Lemma text_app_nil_l (s : string) : "" +:+ s = s.
Proof. reflexivity. Qed.

Lemma prefix_app (p s : string) : String.prefix p (p +:+ s) = true.
Proof.
  induction p as [|c p IH]; [rewrite text_app_nil_l; by destruct s|].
  rewrite text_app_cons. simpl. by destruct (Ascii.ascii_dec c c).
Qed.

Lemma contains_prefix (p s : string) : String.prefix p s = true -> contains p s = true.
Proof. intros E. destruct s; cbn [contains]; by rewrite E. Qed.

(** A text that holds [needle] between two others [contains] it. *)
Lemma contains_app (needle before after : string) :
  contains needle (before +:+ needle +:+ after) = true.
Proof.
  induction before as [|c before IH].
  - rewrite text_app_nil_l. apply contains_prefix, prefix_app.
  - rewrite text_app_cons. simpl. rewrite IH. apply orb_true_r.
Qed.

Lemma chunk_contents_chunks (cs : list string) (rest : list event) :
  chunk_contents ((Chunk <$> cs) ++ rest) = cs ++ chunk_contents rest.
Proof. induction cs as [|c cs IH]; [done|]. simpl. by rewrite <- IH. Qed.

Lemma chunk_contents_thinking (ts : list string) (rest : list event) :
  chunk_contents ((Thinking <$> ts) ++ rest) = chunk_contents rest.
Proof. induction ts as [|t ts IH]; [done|]. by simpl. Qed.

Section Streams.

Context (env : environment).

Import Text.

Lemma ending_terminal (t : event) : ending env t -> is_terminal t = true.
Proof. by intros []. Qed.

Lemma drive_yield others n w e resume :
  drive others n (Yield w e resume)
  = (e :: (drive others (S n) (resume (others n w))).1,
     (drive others (S n) (resume (others n w))).2).
Proof. simpl. by destruct (drive others (S n) (resume (others n w))). Qed.

Section Closure.

Variables (request_id : string) (history api_state : loc).

Abbreviation key := (chat_key request_id).

Lemma finally_removes w :
  exists final, finally_ request_id w = Return final /\ CHAT_REQUESTS final !! key = None.
Proof.
  unfold finally_. destruct (CHAT_REQUESTS w !! key) eqn:E; eexists; split; try done.
  simpl. apply lookup_delete_eq.
Qed.

Lemma drive_finally others n w :
  (drive others n (finally_ request_id w)).1 = []
  /\ CHAT_REQUESTS (drive others n (finally_ request_id w)).2 !! key = None.
Proof. destruct (finally_removes w) as (final & -> & ?). done. Qed.

Lemma drive_last others n w t :
  closes request_id t (drive others n (Yield w t (finally_ request_id))).
Proof.
  rewrite drive_yield. destruct (drive_finally others (S n) (others n w)) as [E ?].
  split; cbn [fst snd]; [by rewrite E | done].
Qed.

Lemma drive_outer_except others n e w :
  exists content, error_wording env content
    /\ closes request_id (Error content)
         (drive others n (outer_except env request_id e w)).
Proof.
  unfold outer_except. eexists. split; [|apply drive_last].
  right; left. by exists e.
Qed.

Lemma drive_inner_except others n e w :
  exists content, error_wording env content
    /\ closes request_id (Error content)
         (drive others n (inner_except env request_id history e w)).
Proof.
  unfold inner_except.
  destruct (set_entry_history _ _ _) as [w2|].
  - eexists. split; [|apply drive_last]. left. by exists e.
  - apply drive_outer_except.
Qed.

Lemma relayed_error others n e w stream full_response :
  relayed env request_id stream full_response
    (drive others n (inner_except env request_id history e w)).
Proof.
  destruct (drive_inner_except others n e w) as (content & Hw & E & Hk).
  exists [], (Error content). rewrite E. split_and!; [done|done|by constructor|done].
Qed.

Lemma drive_complete others n sk cm full_response w :
  relayed env request_id StreamEnd full_response
    (drive others n (complete env request_id history api_state sk cm full_response w)).
Proof.
  unfold complete. destruct (after_stream _ _ _ _ _ _ _) as [w' [cm'|e]].
  - destruct (drive_last others n w' (Done full_response cm' sk)) as [E Hk].
    exists [], (Done full_response cm' sk). rewrite E.
    split_and!; [done|done|constructor|].
    intros c m k [= <- _ _]. by rewrite text_app_nil_r.
  - apply relayed_error.
Qed.

Lemma drive_relay sk cm stream : forall others n full_response w,
  relayed env request_id stream full_response
    (drive others n (relay env request_id history api_state sk cm stream full_response w)).
Proof.
  induction stream as [|chunk rest IH|e]; intros others n full_response w.
  - apply drive_complete.
  - unfold relayed in *. cbn [relay fragments].
    destruct (choices chunk) as [|choice ?];
      [exact (relayed_error others n _ w StreamEnd full_response)|].
    destruct (delta_content choice) as [content|]; [|apply IH].
    rewrite drive_yield.
    destruct (IH others (S n) (full_response +:+ content) (others n w))
      as (cs & t & E & Hk & Ht & Hdone).
    exists (content :: cs), t. cbn [fst snd]. rewrite E.
    split_and!; [done|done|done|].
    intros c m k ->. destruct (Hdone c m k eq_refl) as [-> ->].
    split; [done|]. by rewrite concat_text_cons, text_app_assoc.
  - apply relayed_error.
Qed.

Lemma streamed_closes t r :
  ending env t -> (forall c m k, t <> Done c m k) ->
  closes request_id t r -> streamed env request_id history api_state r.
Proof.
  intros Ht Hne [E Hk]. exists [], [], t. rewrite E.
  split_and!; [done|done|done|]. intros c m k ->. by destruct (Hne c m k).
Qed.

Lemma streamed_thinking content r rest :
  r.1 = Thinking content :: rest.1 -> r.2 = rest.2 ->
  streamed env request_id history api_state rest -> streamed env request_id history api_state r.
Proof.
  intros E1 E2 (ts & cs & t & E & Hk & Ht & Hdone).
  exists (content :: ts), cs, t. rewrite E1, E2, E. by split_and!.
Qed.

Lemma streamed_relayed stream r :
  answered env history api_state stream ->
  relayed env request_id stream "" r -> streamed env request_id history api_state r.
Proof.
  intros Ha (cs & t & E & Hk & Ht & Hdone). exists [], cs, t.
  split_and!; [done|done|done|].
  intros c m k ->. destruct (Hdone c m k eq_refl) as [-> ->].
  split; [by rewrite text_app_nil_l|]. by exists stream.
Qed.

(** The image of the current turn is the one failure [prepare] reports itself. *)
Lemma prepare_image_failed classroom_context w content :
  prepare env history api_state classroom_context w = Ok (ImageFailed content) ->
  exists e, content = msg_image_error +:+ exn_str e.
Proof.
  unfold prepare.
  repeat match goal with
         | |- context [mbind _ ?m] => destruct m; cbn [mbind result_bind]; [|done]
         end.
  match goal with |- context [is_image_turn ?v] => destruct v; try done end.
  destruct (is_image_turn _); [|done].
  destruct (image_message _ _) as [m|e]; [done|].
  intros [= <-]. by exists e.
Qed.

Lemma drive_generate_response others n w :
  streamed env request_id history api_state (drive others n (generate_response env request_id history api_state w)).
Proof.
  unfold generate_response.
  destruct (scientist_lookup _ _) as [scientist|e].
  2:{ destruct (drive_outer_except others n e w) as (c & Hc & Hr).
      eapply streamed_closes; [by constructor|done|done]. }
  rewrite drive_yield. eapply streamed_thinking; [done..|].
  destruct (prepare _ _ _ _ _) as [[content|cm request]|e] eqn:Hp.
  - eapply streamed_closes; [| |apply drive_last]; [|done].
    constructor. right; right. by eapply prepare_image_failed.
  - rewrite drive_yield. eapply streamed_thinking; [done..|].
    destruct (completions_create env request) as [stream|e] eqn:Hc.
    + eapply streamed_relayed; [|apply drive_relay]. by eexists _, _, cm, request.
    + destruct (drive_inner_except (others) (S (S n)) e (others (S n) (others n w)))
        as (c & Hc' & Hr).
      eapply streamed_closes; [by constructor|done|done].
  - destruct (drive_outer_except others (S n) e (others n w)) as (c & Hc & Hr).
    eapply streamed_closes; [by constructor|done|done].
Qed.

End Closure.

End Streams.

(** ** Staging *)

Lemma pretty_N_go_nonempty (x : N) (s : string) : s <> "" -> pretty_N_go x s <> "".
Proof.
  revert s. induction (N.lt_wf_0 x) as [x _ IH]. intros s Hs.
  destruct (decide (x = 0)%N) as [->|Hx]; [by rewrite pretty_N_go_0|].
  rewrite pretty_N_go_step by lia. apply IH; [apply N.div_lt; lia|done].
Qed.

(** [str(n)] of an int is never the empty string. *)
Lemma pretty_Z_nonempty (z : Z) : pretty z <> "".
Proof.
  assert (forall p : positive, pretty (N.pos p) <> "") as Hp.
  { intros p. unfold pretty, pretty_N. destruct (decide _); [done|].
    rewrite pretty_N_go_step by lia. by apply pretty_N_go_nonempty. }
  destruct z as [|p|p]; [done|apply Hp|done].
Qed.

(** What a successful [chat] leaves behind. *)
Lemma chat_success (env : environment) (request : ChatRequest) (w : world)
    (body : JSONBody) (w' : world) :
  chat env request w = (body, w') ->
  status body = "success" ->
  exists id data,
    request_id body = Some id /\ id <> ""
    /\ CHAT_REQUESTS w' !! chat_key id = Some data
    /\ cd_message data = req_message request
    /\ heap_list w' (cd_history data) = req_history request
    /\ (length (req_history request) < 40)%nat
    /\ timers w' = {| interval := 300; closure_request_id := id |} :: timers w.
Proof.
  unfold chat. destruct (_ || _); [by intros [= <- _]|].
  destruct (_ <=? _) eqn:Hlen; [by intros [= <- _]|].
  destruct (timer_start env); [by intros [= <- _]|].
  intros [= <- <-] _. eexists _, _. split_and!; [done| |..].
  - destruct (req_request_id request) as [s|]; [|apply pretty_Z_nonempty].
    destruct (String.eqb_spec s ""); [apply pretty_Z_nonempty|done].
  - simpl. apply lookup_insert_eq.
  - done.
  - unfold heap_list. simpl. by rewrite lookup_insert_eq.
  - apply Z.leb_gt in Hlen. unfold MAX_HISTORY in Hlen. lia.
  - done.
Qed.

(** ** The entry during a run *)

Lemma chat_stream_table (env : environment) (rid : string) (w : world) :
  CHAT_REQUESTS (chat_stream env rid w).2 = CHAT_REQUESTS w.
Proof.
  unfold chat_stream.
  destruct (if String.eqb rid "" then None else CHAT_REQUESTS w !! chat_key rid); [|done].
  cbn [snd]. destruct (last _) as [turn|]; [|done].
  destruct (is_image_turn turn); [done|]. by destruct (is_str turn _).
Qed.

Section Pending.

Context (env : environment).

Variables (request_id : string) (history api_state : loc).

Abbreviation pending := (pending request_id).

Lemma pending_set_entry_history h w :
  pending w ->
  exists w', set_entry_history (chat_key request_id) h w = Some w' /\ pending w'.
Proof.
  intros [data E]. unfold set_entry_history. rewrite E. eexists. split; [done|].
  unfold pending. simpl. rewrite lookup_insert_eq. by eexists.
Qed.

Lemma pending_set_entry_api_state a w :
  pending w ->
  exists w', set_entry_api_state (chat_key request_id) a w = Some w' /\ pending w'.
Proof.
  intros [data E]. unfold set_entry_api_state. rewrite E. eexists. split; [done|].
  unfold pending. simpl. rewrite lookup_insert_eq. by eexists.
Qed.

Lemma at_yields_last w t : pending w -> at_yields pending (Yield w t (finally_ request_id)).
Proof. intros Hw. constructor; [done|]. intros w' _. constructor. Qed.

Lemma at_yields_outer_except e w :
  pending w -> at_yields pending (outer_except env request_id e w).
Proof.
  intros Hw. unfold outer_except. apply at_yields_last.
  destruct Hw as [data E]. rewrite E. by exists data.
Qed.

Lemma at_yields_inner_except e w :
  pending w -> at_yields pending (inner_except env request_id history e w).
Proof.
  intros Hw. unfold inner_except.
  destruct (pending_set_entry_history history
              (list_append history (PStr (handle_api_error e)) w) Hw) as (w2 & -> & Hw2).
  by apply at_yields_last.
Qed.

Lemma after_stream_pending cm full_response w :
  pending w -> pending (after_stream env request_id history api_state cm full_response w).1.
Proof.
  intros Hw. unfold after_stream.
  destruct (_ !! _) as [last_user_message|]; [|done].
  destruct (2 <=? _)%nat; [|done].
  destruct (update_memory _ _ _) as [cm'|e]; [|done].
  match goal with |- context [set_entry_history ?k ?h ?w2] =>
    destruct (pending_set_entry_history h w2 Hw) as (w3 & -> & Hw3) end.
  by destruct (pending_set_entry_api_state api_state w3 Hw3) as (w4 & -> & Hw4).
Qed.

Lemma at_yields_complete sk cm full_response w :
  pending w ->
  at_yields pending (complete env request_id history api_state sk cm full_response w).
Proof.
  intros Hw. unfold complete.
  pose proof (after_stream_pending cm full_response w Hw) as H.
  destruct (after_stream _ _ _ _ _ _ _) as [w' [cm'|e]]; simpl in H.
  - by apply at_yields_last.
  - by apply at_yields_inner_except.
Qed.

Lemma at_yields_relay sk cm stream : forall full_response w,
  pending w ->
  at_yields pending (relay env request_id history api_state sk cm stream full_response w).
Proof.
  induction stream as [|chunk rest IH|e]; intros full_response w Hw; cbn [relay].
  - by apply at_yields_complete.
  - destruct (choices chunk) as [|choice ?]; [by apply at_yields_inner_except|].
    destruct (delta_content choice) as [content|]; [|by apply IH].
    constructor; [done|]. intros w' Hw'. by apply IH.
  - by apply at_yields_inner_except.
Qed.

(** The generator leaves its entry in the table until its [finally]: when
    nothing else removes the entry, it is there at every [yield]. *)
Lemma at_yields_generate_response w :
  pending w -> at_yields pending (generate_response env request_id history api_state w).
Proof.
  intros Hw. unfold generate_response.
  destruct (scientist_lookup _ _) as [scientist|e].
  2:{ by apply at_yields_outer_except. }
  constructor; [done|]. intros w1 Hw1.
  destruct (prepare _ _ _ _ _) as [[content|cm request]|e].
  - by apply at_yields_last.
  - constructor; [done|]. intros w2 Hw2.
    destruct (completions_create env request) as [stream|e].
    + by apply at_yields_relay.
    + by apply at_yields_inner_except.
  - by apply at_yields_outer_except.
Qed.

End Pending.

(** ** The exception behind an [error] event *)

Section Reported.

Context (env : environment).

Variables (request_id : string) (history api_state : loc).

Abbreviation reported := (reported env request_id history api_state).
Abbreviation inner_raises := (inner_raises env request_id history api_state).
Abbreviation outer_raises := (outer_raises env request_id history api_state).

Lemma error_last others n w t content :
  Error content ∈ (drive others n (Yield w t (finally_ request_id))).1 ->
  t = Error content.
Proof.
  destruct (drive_last request_id others n w t) as [-> _].
  by intros ->%list_elem_of_singleton.
Qed.

Lemma reported_outer_except others n e w content :
  outer_raises e ->
  Error content ∈ (drive others n (outer_except env request_id e w)).1 ->
  reported content.
Proof.
  intros He [= <-]%error_last. right; left. by exists e.
Qed.

Lemma reported_inner_except others n e w content :
  inner_raises e ->
  Error content ∈ (drive others n (inner_except env request_id history e w)).1 ->
  reported content.
Proof.
  intros He. unfold inner_except.
  destruct (set_entry_history _ _ _) as [w2|] eqn:E.
  - intros [= <-]%error_last. left. exists e. split; [done|]. by destruct e.
  - apply reported_outer_except. right; right. split; [done|]. by eexists.
Qed.

(** The relay loop on what is left of the provider's stream: an exception it
    stops on is the one the rest of the stream breaks with, or one of the
    statements after a stream that reached its end. *)
Lemma reported_relay sk cm stream : forall others n full_response w content,
  (forall e,
     failure env stream = Some e
     \/ (failure env stream = None
         /\ exists w',
              (after_stream env request_id history api_state cm
                 (full_response +:+ concat_text (fragments stream)) w').2 = Raise e) ->
     inner_raises e) ->
  Error content
  ∈ (drive others n
       (relay env request_id history api_state sk cm stream full_response w)).1 ->
  reported content.
Proof.
  induction stream as [|chunk rest IH|e]; intros others n full_response w content H;
    cbn [relay].
  - unfold complete.
    destruct (after_stream _ _ _ _ _ _ _) as [w' [cm'|e]] eqn:E.
    + by intros [=]%error_last.
    + apply reported_inner_except, H. right. split; [done|]. exists w.
      cbn [fragments concat_text foldr]. by rewrite text_app_nil_r, E.
  - cbn [failure fragments] in H.
    destruct (choices chunk) as [|choice ?]; [apply reported_inner_except, H; by left|].
    destruct (delta_content choice) as [piece|]; [|by apply IH].
    rewrite drive_yield. cbn [fst].
    intros [[=]|Hin]%elem_of_cons. revert Hin. apply IH.
    intros e He. apply H.
    by rewrite concat_text_cons, <- text_app_assoc.
  - apply reported_inner_except, H. by left.
Qed.

(** The image of the current turn is the one failure [prepare] words itself. *)
Lemma prepare_image_raises classroom_context w content :
  prepare env history api_state classroom_context w = Ok (ImageFailed content) ->
  exists e,
    image_raises env history e /\ content = Text.msg_image_error +:+ exn_str e.
Proof.
  unfold prepare.
  repeat match goal with
         | |- context [mbind _ ?m] =>
             destruct m eqn:?; cbn [mbind result_bind]; [|done]
         end.
  match goal with |- context [is_image_turn ?v] => destruct v as [| | | | | |turn]; try done end.
  destruct (is_image_turn _) eqn:Hi; [|done].
  destruct (image_message _ _) as [m|e] eqn:Hm; [done|].
  intros [= <-]. exists e. split; [|done]. exists w, turn. split_and!; [|done|done].
  match goal with
  | H : match last (heap_list w history) with Some _ => _ | None => _ end = Ok _ |- _ =>
      destruct (last (heap_list w history)) as [v|]; [by injection H as ->|done]
  end.
Qed.

(** Every [error] event of a run carries the wording of its handler around the
    text of the exception that handler caught. *)
Lemma reported_generate_response others n w content :
  Error content
  ∈ (drive others n (generate_response env request_id history api_state w)).1 ->
  reported content.
Proof.
  unfold generate_response.
  destruct (scientist_lookup _ _) as [scientist|e] eqn:Hs.
  2:{ apply reported_outer_except. left. by exists w. }
  rewrite drive_yield. cbn [fst]. intros [[=]|Hin]%elem_of_cons. revert Hin.
  destruct (prepare _ _ _ _ _) as [[failed|cm request]|e] eqn:Hp.
  - intros [= <-]%error_last. right; right. by eapply prepare_image_raises.
  - rewrite drive_yield. cbn [fst]. intros [[=]|Hin]%elem_of_cons. revert Hin.
    destruct (completions_create env request) as [stream|e] eqn:Hc.
    + apply reported_relay. intros e He. eexists _, _, cm, request.
      split; [done|]. right. exists stream. split; [done|].
      by rewrite text_app_nil_l in He.
    + apply reported_inner_except. eexists _, _, cm, request. split; [done|]. by left.
  - apply reported_outer_except. right; left. by eexists _, _.
Qed.

End Reported.

(** ** Staging *)

Lemma chat_stream_inv (env : environment) (rid : string) (w : world)
    (generator : world -> gstep) (w' : world) :
  chat_stream env rid w = (StreamingResponse generator, w') ->
  exists data,
    rid <> "" /\ CHAT_REQUESTS w !! chat_key rid = Some data
    /\ generator = generate_response env rid (cd_history data) (cd_api_state data)
    /\ CHAT_REQUESTS w' = CHAT_REQUESTS w.
Proof.
  unfold chat_stream. destruct (String.eqb_spec rid "") as [->|Hne]; [done|].
  destruct (CHAT_REQUESTS w !! chat_key rid) as [data|] eqn:E; [|done].
  intros [= <- <-]. exists data. split_and!; [done|done|done|].
  destruct (last _) as [turn|]; [|done].
  destruct (is_image_turn turn); [done|]. by destruct (is_str turn _).
Qed.

(** C5.  Unknown-key dispatch: when the pending table has no entry under the
    key of [rid] (never staged, consumed or evicted), [chat_stream] answers
    with the one JSON error body "Invalid or expired request", opens no stream,
    and leaves the table, and all shared state with it, as it was. *)
Theorem chat_stream_unknown_key (env : environment) (rid : string) (w : world) :
  CHAT_REQUESTS w !! chat_key rid = None ->
  chat_stream env rid w
  = (JSONResponse {| status := "error"; message := Text.msg_invalid_request;
                     request_id := None |}, w).
Proof.
  intros E. unfold chat_stream. rewrite E. by destruct (String.eqb rid "").
Qed.

Lemma chat_stream_unknown_key_witness :
  CHAT_REQUESTS Demo.staged !! chat_key "r2" = None
  /\ chat_stream Demo.env "r2" Demo.staged
     = (JSONResponse {| status := "error"; message := Text.msg_invalid_request;
                        request_id := None |}, Demo.staged).
Proof.
  split; [vm_compute; reflexivity|].
  apply (chat_stream_unknown_key Demo.env "r2" Demo.staged). vm_compute; reflexivity.
Defined.




(** C7.  Invalid configuration: when [api_state] is empty, or has no
    [is_valid], or has one that is falsy, [chat] returns the JSON error body
    "Please restart the system" (a value, not an exception) and the shared
    state is untouched: no entry inserted, no timer armed. *)
Theorem chat_invalid_configuration (env : environment) (request : ChatRequest) (w : world) :
  req_api_state request = []
  \/ dict_get (req_api_state request) "is_valid" = None
  \/ (exists v, dict_get (req_api_state request) "is_valid" = Some v /\ truthy v = false) ->
  chat env request w
  = ({| status := "error"; message := Text.msg_restart; request_id := None |}, w).
Proof.
  intros H. unfold chat, dict_get_or.
  destruct H as [->|[->|(v & -> & Hv)]]; simpl; [done| |by rewrite Hv, orb_true_r].
  by rewrite orb_true_r.
Qed.

Lemma chat_invalid_configuration_witness :
  (exists v, dict_get [("is_valid", PBool false)] "is_valid" = Some v /\ truthy v = false)
  /\ chat Demo.env (Demo.submission [] [("is_valid", PBool false)] "hi" None) Demo.staged
     = ({| status := "error"; message := Text.msg_restart; request_id := None |},
        Demo.staged).
Proof.
  split; [by exists (PBool false)|].
  apply (chat_invalid_configuration Demo.env
           (Demo.submission [] [("is_valid", PBool false)] "hi" None) Demo.staged).
  right; right. by exists (PBool false).
Defined.

(** C2, as stated, fails: a submission whose history has reached the limit
    but whose configuration is unusable gets the configuration error, because
    that check comes first. *)
Lemma history_limit_behind_configuration :
  let request := Demo.submission (replicate 40 (PStr "turn")) [] "hi" None in
  (MAX_HISTORY * 2 <=? Z.of_nat (length (req_history request))) = true
  /\ chat Demo.env request Demo.empty_world
     = ({| status := "error"; message := Text.msg_restart; request_id := None |},
        Demo.empty_world)
  /\ Text.msg_restart <> Text.msg_limit.
Proof. split_and!; [reflexivity|reflexivity|discriminate]. Qed.

(** C2, amended.  History limit: for every submission with
    [len(history) >= MAX_HISTORY * 2], [chat] leaves the shared state as it was
    (no entry, no timer) and returns a JSON error body: "Maximum conversation
    limit reached" when the configuration is usable, "Please restart the
    system" when it is not. *)
Theorem chat_history_limit (env : environment) (request : ChatRequest) (w : world) :
  MAX_HISTORY * 2 <= Z.of_nat (length (req_history request)) ->
  chat env request w
  = ({| status := "error";
        message :=
          if truthy (PDict (req_api_state request))
             && truthy (dict_get_or (req_api_state request) "is_valid" (PBool false))
          then Text.msg_limit else Text.msg_restart;
        request_id := None |}, w).
Proof.
  intros H. unfold chat.
  destruct (truthy (PDict _)); simpl; [|done].
  destruct (truthy (dict_get_or _ _ _)); simpl; [|done].
  by apply Z.leb_le in H as ->.
Qed.

Lemma chat_history_limit_witness :
  MAX_HISTORY * 2 <= Z.of_nat (length (replicate 40 (PStr "turn")))
  /\ chat Demo.env (Demo.submission (replicate 40 (PStr "turn")) Demo.usable "hi" None)
       Demo.staged
     = ({| status := "error"; message := Text.msg_limit; request_id := None |}, Demo.staged).
Proof.
  split; [by vm_compute|].
  apply (chat_history_limit Demo.env
           (Demo.submission (replicate 40 (PStr "turn")) Demo.usable "hi" None) Demo.staged).
  by vm_compute.
Defined.

(** ** Dispatch *)

(** C1, as stated, fails: the lookup does not remove the entry, so two
    dispatch attempts made one after the other, before either stream has run,
    both find the staged payload and both get a stream. *)
Lemma double_dispatch_both_observe :
  let first := chat_stream Demo.env "r1" Demo.staged in
  let second := chat_stream Demo.env "r1" first.2 in
  is_stream first.1 = true
  /\ CHAT_REQUESTS first.2 !! chat_key "r1" = Some Demo.staged_data
  /\ is_stream second.1 = true.
Proof. vm_compute. by split_and!. Qed.

(** C1, amended.  Consumption does not remove: given a non-empty key and a
    state whose table has an entry under it, [chat_stream] opens a stream over
    that entry's history and configuration and leaves the table as it was; so
    every attempt made while the entry is in the table finds the payload, and
    a second attempt made right after the first is answered with a stream over
    the same payload.  The generator does not remove the entry before it ends:
    started on a state that has the entry, and as long as nothing else removes
    it, the entry is in the table at every [yield].  The entry is removed when
    the generator ends (its [finally]), whatever the rest of the process did
    in between; an attempt made on the state it leaves finds nothing and
    reports "Invalid or expired request". *)
Theorem dispatch_removes_at_stream_end (env : environment) (rid : string) (w : world)
    (data : chat_data) :
  rid <> "" ->
  CHAT_REQUESTS w !! chat_key rid = Some data ->
  exists generator w',
    chat_stream env rid w = (StreamingResponse generator, w')
    /\ generator = generate_response env rid (cd_history data) (cd_api_state data)
    /\ CHAT_REQUESTS w' = CHAT_REQUESTS w
    /\ (exists w'', chat_stream env rid w' = (StreamingResponse generator, w''))
    /\ (forall w0, pending rid w0 -> at_yields (pending rid) (generator w0))
    /\ forall others n w0,
         CHAT_REQUESTS (drive others n (generator w0)).2 !! chat_key rid = None
         /\ chat_stream env rid (drive others n (generator w0)).2
            = (JSONResponse {| status := "error"; message := Text.msg_invalid_request;
                               request_id := None |},
               (drive others n (generator w0)).2).
Proof.
  intros Hne E.
  assert (forall w1, CHAT_REQUESTS w1 !! chat_key rid = Some data ->
            (chat_stream env rid w1).1
            = StreamingResponse
                (generate_response env rid (cd_history data) (cd_api_state data)))
    as Hopen.
  { intros w1 E1. unfold chat_stream. destruct (String.eqb_spec rid ""); [done|].
    by rewrite E1. }
  pose proof (chat_stream_table env rid w) as Hw'.
  exists (generate_response env rid (cd_history data) (cd_api_state data)),
    (chat_stream env rid w).2.
  split_and!; [|done|done| | |].
  - rewrite (surjective_pairing (chat_stream env rid w)). by rewrite (Hopen w E).
  - exists (chat_stream env rid (chat_stream env rid w).2).2.
    rewrite (surjective_pairing (chat_stream env rid (chat_stream env rid w).2)).
    rewrite (Hopen (chat_stream env rid w).2); [done|]. by rewrite Hw'.
  - intros w0. apply at_yields_generate_response.
  - intros others n w0.
    destruct (drive_generate_response env rid (cd_history data) (cd_api_state data)
                others n w0) as (ts & cs & t & _ & Hk & _).
    split; [done|]. unfold chat_stream. rewrite Hk. by destruct (String.eqb rid "").
Qed.

Lemma dispatch_removes_at_stream_end_witness :
  "r1" <> ""
  /\ CHAT_REQUESTS Demo.staged !! chat_key "r1" = Some Demo.staged_data
  /\ exists generator w',
       chat_stream Demo.env "r1" Demo.staged = (StreamingResponse generator, w')
       /\ generator
          = generate_response Demo.env "r1" (cd_history Demo.staged_data)
              (cd_api_state Demo.staged_data)
       /\ CHAT_REQUESTS w' = CHAT_REQUESTS Demo.staged
       /\ (exists w'', chat_stream Demo.env "r1" w' = (StreamingResponse generator, w''))
       /\ (forall w0, pending "r1" w0 -> at_yields (pending "r1") (generator w0))
       /\ forall others n w0,
            CHAT_REQUESTS (drive others n (generator w0)).2 !! chat_key "r1" = None
            /\ chat_stream Demo.env "r1" (drive others n (generator w0)).2
               = (JSONResponse {| status := "error"; message := Text.msg_invalid_request;
                                  request_id := None |},
                  (drive others n (generator w0)).2).
Proof.
  split; [done|]. split; [vm_compute; reflexivity|].
  apply (dispatch_removes_at_stream_end Demo.env "r1" Demo.staged Demo.staged_data);
    [done|vm_compute; reflexivity].
Defined.

(** ** The event stream *)

Lemma streamed_events (env : environment) (rid : string) (history api_state : loc)
    (r : list event * world) :
  streamed env rid history api_state r ->
  exists ts cs t,
    r.1 = (Thinking <$> ts) ++ (Chunk <$> cs) ++ [t] /\ ending env t
    /\ forall content memory sk,
         t = Done content memory sk ->
         content = concat_text cs
         /\ exists stream, answered env history api_state stream /\ cs = fragments stream.
Proof. intros (ts & cs & t & E & _ & Ht & Hd). by exists ts, cs, t. Qed.

Lemma elem_of_shape (e : event) (ts cs : list string) (t : event) :
  e ∈ (Thinking <$> ts) ++ (Chunk <$> cs) ++ [t] ->
  is_terminal e = true -> e = t.
Proof.
  rewrite !elem_of_app, !list_elem_of_fmap, list_elem_of_singleton.
  intros [(x & -> & _) | [(x & -> & _) | ->]]; done.
Qed.

(** C3.  Chunk ordering and reconstruction: in every run of a dispatched
    stream that reaches a [done] event, the contents of the [chunk] events are,
    one for one and in the same order, the text fragments of the stream the
    provider answered this dispatch's request with, and their concatenation is
    the [content] of that [done] event. *)
Theorem chunks_rebuild_done_content (env : environment) (rid : string) (w : world)
    (generator : world -> gstep) (w' : world) (others : nat -> world -> world) (n : nat)
    (w0 : world) (content : string) (memory sk : pyval) :
  chat_stream env rid w = (StreamingResponse generator, w') ->
  Done content memory sk ∈ (drive others n (generator w0)).1 ->
  concat_text (chunk_contents (drive others n (generator w0)).1) = content
  /\ exists data stream,
       CHAT_REQUESTS w !! chat_key rid = Some data
       /\ answered env (cd_history data) (cd_api_state data) stream
       /\ chunk_contents (drive others n (generator w0)).1 = fragments stream.
Proof.
  intros Hs Hin.
  destruct (chat_stream_inv env rid w generator w' Hs) as (data & _ & Hd' & -> & _).
  destruct (streamed_events env rid _ _ _
              (drive_generate_response env rid (cd_history data) (cd_api_state data)
                 others n w0)) as (ts & cs & t & E & _ & Hd).
  rewrite E in Hin |- *.
  apply elem_of_shape in Hin as <-; [|done].
  destruct (Hd content memory sk eq_refl) as (-> & stream & Ha & ->).
  rewrite chunk_contents_thinking, chunk_contents_chunks. simpl. rewrite app_nil_r.
  split; [done|]. by exists data, stream.
Qed.

Lemma chunks_rebuild_done_content_witness :
  let run := drive idle 0 (generate_response Demo.env "r1" 0%nat 0%nat
                             (chat_stream Demo.env "r1" Demo.staged).2) in
  Done "Hello" (PDict [("topics", PList [PStr "Algebra"]);
                       ("user_questions", PList [PStr "solve x+1=2"]);
                       ("misconceptions", PList []); ("strengths", PList []);
                       ("weaknesses", PList [])])
    (PStr "none") ∈ run.1
  /\ concat_text (chunk_contents run.1) = "Hello"
  /\ exists data stream,
       CHAT_REQUESTS Demo.staged !! chat_key "r1" = Some data
       /\ answered Demo.env (cd_history data) (cd_api_state data) stream
       /\ chunk_contents run.1 = fragments stream.
Proof.
  assert (Done "Hello"
            (PDict [("topics", PList [PStr "Algebra"]);
                    ("user_questions", PList [PStr "solve x+1=2"]);
                    ("misconceptions", PList []); ("strengths", PList []);
                    ("weaknesses", PList [])])
            (PStr "none")
          ∈ (drive idle 0 (generate_response Demo.env "r1" 0%nat 0%nat
                             (chat_stream Demo.env "r1" Demo.staged).2)).1) as Hin.
  { vm_compute. do 4 apply list_elem_of_further. apply list_elem_of_here. }
  split; [exact Hin|].
  exact (chunks_rebuild_done_content Demo.env "r1" Demo.staged
           (generate_response Demo.env "r1" 0%nat 0%nat)
           (chat_stream Demo.env "r1" Demo.staged).2 idle 0%nat
           (chat_stream Demo.env "r1" Demo.staged).2 _ _ _ eq_refl Hin).
Defined.

(** C4.  Terminal events: every run of a dispatched stream, whatever the rest
    of the process does meanwhile, emits its events as some that are not
    terminal followed by exactly one that is ([done] or [error]): one terminal
    event, never two, never none, and nothing after it. *)
Theorem one_terminal_event_last (env : environment) (rid : string) (w : world)
    (generator : world -> gstep) (w' : world) (others : nat -> world -> world) (n : nat)
    (w0 : world) :
  chat_stream env rid w = (StreamingResponse generator, w') ->
  exists body t,
    (drive others n (generator w0)).1 = body ++ [t]
    /\ is_terminal t = true
    /\ forallb (fun e => negb (is_terminal e)) body = true.
Proof.
  intros Hs.
  destruct (chat_stream_inv env rid w generator w' Hs) as (data & _ & _ & -> & _).
  destruct (streamed_events env rid _ _ _
              (drive_generate_response env rid (cd_history data) (cd_api_state data)
                 others n w0)) as (ts & cs & t & E & Ht & _).
  exists ((Thinking <$> ts) ++ (Chunk <$> cs)), t.
  split_and!; [by rewrite E, <- (assoc (++))|by eapply ending_terminal|].
  rewrite forallb_app. apply andb_true_iff. split.
  - clear. by induction ts.
  - clear. by induction cs.
Qed.

Lemma one_terminal_event_last_witness :
  exists body t,
    (drive idle 0 (generate_response Demo.env "r1" 0%nat 0%nat Demo.staged)).1 = body ++ [t]
    /\ is_terminal t = true
    /\ forallb (fun e => negb (is_terminal e)) body = true.
Proof.
  exact (one_terminal_event_last Demo.env "r1" Demo.staged
           (generate_response Demo.env "r1" 0%nat 0%nat)
           (chat_stream Demo.env "r1" Demo.staged).2 idle 0%nat Demo.staged eq_refl).
Defined.

(** The eviction timer firing while the provider streams: every fragment is
    relayed, the write-back then finds no entry, and the stream ends in one
    [error] event in place of [done]. *)
Example eviction_during_stream :
  let others n := if (n =? 2)%nat then cleanup_request_data "r1" else id in
  (drive others 0 (generate_response Demo.env "r1" 0%nat 0%nat
                     (chat_stream Demo.env "r1" Demo.staged).2)).1
  = [Thinking Text.msg_analyzing; Thinking Text.msg_processing; Chunk "Hel"; Chunk "lo";
     Error ("[22:13:20] " +:+ Text.msg_unexpected +:+ "'CHAT_REQ_r1'")].
Proof. vm_compute. reflexivity. Qed.

(** ** Failures *)




(** ** Keys *)

(** C9, as stated, fails: nothing makes a key unique.  Two submissions with
    the client's key "r1", and two without a key staged in the same second,
    are each stored under one key, both with success, and the later one
    replaces the earlier one. *)
Lemma later_submission_replaces_earlier :
  let first := Demo.submission [] Demo.usable "first question" in
  let second := Demo.submission [] Demo.usable "second question" in
  let stage id := chat Demo.env (first id) Demo.empty_world in
  let restage id := chat Demo.env (second id) (stage id).2 in
  (status (stage (Some "r1")).1 = "success"
   /\ status (restage (Some "r1")).1 = "success"
   /\ cd_message <$> CHAT_REQUESTS (stage (Some "r1")).2 !! chat_key "r1"
      = Some (Demo.says "first question")
   /\ cd_message <$> CHAT_REQUESTS (restage (Some "r1")).2 !! chat_key "r1"
      = Some (Demo.says "second question"))
  /\ (status (stage None).1 = "success"
      /\ status (restage None).1 = "success"
      /\ request_id (stage None).1 = Some "1700000000"
      /\ request_id (restage None).1 = Some "1700000000"
      /\ cd_message <$> CHAT_REQUESTS (stage None).2 !! chat_key "1700000000"
         = Some (Demo.says "first question")
      /\ cd_message <$> CHAT_REQUESTS (restage None).2 !! chat_key "1700000000"
         = Some (Demo.says "second question"))
  /\ Demo.says "first question" <> Demo.says "second question".
Proof. vm_compute. split_and!; done. Qed.

(** C9, amended.  One entry per key, no uniqueness of keys: a successful
    [chat] binds its key to the new submission in the table, as a map update,
    so the key has one entry, whatever it held before is replaced without
    notice, and every other key keeps what it had.  The key is the client's
    [request_id] when that is a non-empty string and the Unix time in whole
    seconds otherwise. *)
Theorem chat_binds_key_to_latest (env : environment) (request : ChatRequest) (w : world)
    (body : JSONBody) (w' : world) :
  chat env request w = (body, w') ->
  status body = "success" ->
  exists rid data,
    request_id body = Some rid
    /\ ((req_request_id request = Some rid /\ rid <> "")
        \/ ((req_request_id request = None \/ req_request_id request = Some "")
            /\ rid = pretty (time_time env)))
    /\ CHAT_REQUESTS w' = <[chat_key rid := data]> (CHAT_REQUESTS w)
    /\ cd_message data = req_message request
    /\ heap_list w' (cd_history data) = req_history request
    /\ heap_dict w' (cd_api_state data) = req_api_state request.
Proof.
  unfold chat. destruct (_ || _); [by intros [= <- _]|].
  destruct (_ <=? _); [by intros [= <- _]|].
  destruct (timer_start env); [by intros [= <- _]|].
  intros [= <- <-] _. eexists _, _. split_and!; [done| |done|done|..].
  - destruct (req_request_id request) as [s|]; [|by right; split; [left|]].
    destruct (String.eqb_spec s "") as [->|Hne]; [by right; split; [right|]|by left].
  - unfold heap_list. simpl. by rewrite lookup_insert_eq.
  - unfold heap_dict. simpl. by rewrite lookup_insert_eq.
Qed.

Lemma chat_binds_key_to_latest_witness :
  let request := Demo.submission [] Demo.usable "second question" None in
  status (chat Demo.env request Demo.staged).1 = "success"
  /\ exists rid data,
       request_id (chat Demo.env request Demo.staged).1 = Some rid
       /\ ((req_request_id request = Some rid /\ rid <> "")
           \/ ((req_request_id request = None \/ req_request_id request = Some "")
               /\ rid = pretty (time_time Demo.env)))
       /\ CHAT_REQUESTS (chat Demo.env request Demo.staged).2
          = <[chat_key rid := data]> (CHAT_REQUESTS Demo.staged)
       /\ cd_message data = req_message request
       /\ heap_list (chat Demo.env request Demo.staged).2 (cd_history data)
          = req_history request
       /\ heap_dict (chat Demo.env request Demo.staged).2 (cd_api_state data)
          = req_api_state request.
Proof.
  split; [reflexivity|].
  apply (chat_binds_key_to_latest Demo.env
           (Demo.submission [] Demo.usable "second question" None) Demo.staged
           (chat Demo.env (Demo.submission [] Demo.usable "second question" None)
              Demo.staged).1);
    [by destruct (chat _ _ _)|reflexivity].
Defined.

(** ** The new message *)

Lemma is_str_true (v : pyval) (s : string) : is_str v s = true <-> v = PStr s.
Proof.
  destruct v; simpl; try (split; [done|by intros [=]]).
  rewrite String.eqb_eq. split; [by intros ->|by intros [= ->]].
Qed.

Lemma heap_list_append (l : loc) (v : pyval) (w : world) :
  heap_list (list_append l v w) l = heap_list w l ++ [v].
Proof. unfold heap_list at 1. simpl. by rewrite lookup_insert_eq. Qed.

Lemma user_message_of_turn (user_text : string) (image_data : option pydict) :
  is_image_turn (user_message_of user_text image_data) = true
  \/ user_message_of user_text image_data = PStr user_text.
Proof. destruct image_data as [[|item items]|]; simpl; auto. Qed.

Lemma chat_stream_state (env : environment) (rid : string) (w : world) (data : chat_data) :
  rid <> "" ->
  CHAT_REQUESTS w !! chat_key rid = Some data ->
  (chat_stream env rid w).2
  = let appended :=
      list_append (cd_history data)
        (user_message_of (strip (msg_text (cd_message data)))
           (msg_image_data (cd_message data))) w in
    match last (heap_list w (cd_history data)) with
    | Some turn =>
        if is_image_turn turn then w
        else if is_str turn (strip (msg_text (cd_message data))) then w
        else appended
    | None => appended
    end.
Proof.
  intros Hne E. unfold chat_stream. destruct (String.eqb_spec rid ""); [done|].
  by rewrite E.
Qed.

(** C10, as stated, fails where the text has blanks around it: the comparison
    and the append use the text stripped.  A last turn equal to the message's
    text is followed by a second, stripped copy; and a last turn that differs
    from the message's text only by those blanks stops the append. *)
Lemma padded_text_is_compared_stripped :
  let padded := Demo.submission [PStr " hi "] Demo.usable " hi " (Some "r1") in
  let staged := (chat Demo.env padded Demo.empty_world).2 in
  let other := Demo.submission [PStr "hi"] Demo.usable " hi " (Some "r1") in
  let staged' := (chat Demo.env other Demo.empty_world).2 in
  (last (heap_list staged 0%nat) = Some (PStr (msg_text (req_message padded)))
   /\ heap_list (chat_stream Demo.env "r1" staged).2 0%nat = [PStr " hi "; PStr "hi"])
  /\ (last (heap_list staged' 0%nat) = Some (PStr "hi")
      /\ PStr "hi" <> PStr (msg_text (req_message other))
      /\ heap_list (chat_stream Demo.env "r1" staged').2 0%nat = [PStr "hi"]).
Proof. vm_compute. split_and!; done. Qed.

(** C10, amended.  The new message at dispatch: let [user_text] be the
    message's text with leading and trailing whitespace stripped.  When the
    last element of the staged history is an image turn, or is the string
    [user_text], [chat_stream] appends nothing; otherwise (also for an empty
    history) it appends the new user message to the staged history, in place,
    before the generator runs: [user_text] itself, or an image turn carrying
    it when the message has image data.  Either way the history then ends
    with an image turn or with [user_text], and dispatching once more appends
    nothing further. *)
Theorem chat_stream_appends_new_message (env : environment) (rid : string) (w : world)
    (data : chat_data) :
  rid <> "" ->
  CHAT_REQUESTS w !! chat_key rid = Some data ->
  let h := cd_history data in
  let user_text := strip (msg_text (cd_message data)) in
  let before := heap_list w h in
  let opened := (chat_stream env rid w).2 in
  ((exists turn, last before = Some turn
      /\ (is_image_turn turn = true \/ turn = PStr user_text)) ->
   heap_list opened h = before)
  /\ (last before = None
      \/ (exists turn, last before = Some turn
            /\ is_image_turn turn = false /\ turn <> PStr user_text) ->
      heap_list opened h
      = before ++ [user_message_of user_text (msg_image_data (cd_message data))])
  /\ (exists turn, last (heap_list opened h) = Some turn
        /\ (is_image_turn turn = true \/ turn = PStr user_text))
  /\ heap_list (chat_stream env rid opened).2 h = heap_list opened h.
Proof.
  intros Hne E h user_text before opened.
  assert (CHAT_REQUESTS opened !! chat_key rid = Some data) as E'.
  { subst opened. rewrite (chat_stream_state env rid w data Hne E). cbv zeta.
    destruct (last _) as [turn|]; [|done].
    destruct (is_image_turn turn); [done|]. by destruct (is_str turn _). }
  assert (exists turn, last (heap_list opened h) = Some turn
            /\ (is_image_turn turn = true \/ turn = PStr user_text)) as Hlast.
  { subst opened. rewrite (chat_stream_state env rid w data Hne E). cbv zeta.
    fold h user_text before.
    destruct (last before) as [turn|] eqn:El.
    - destruct (is_image_turn turn) eqn:Ei; [exists turn; by auto|].
      destruct (is_str turn user_text) eqn:Es.
      + exists turn. split; [done|]. right. by apply is_str_true.
      + eexists. rewrite heap_list_append, last_snoc. split; [done|].
        apply user_message_of_turn.
    - eexists. rewrite heap_list_append, last_snoc. split; [done|].
      apply user_message_of_turn. }
  split_and!.
  - intros (turn & El & Ht). subst opened.
    rewrite (chat_stream_state env rid w data Hne E). cbv zeta.
    fold h user_text before. rewrite El.
    destruct Ht as [->| ->%is_str_true]; [done|]. by destruct (is_image_turn turn).
  - intros Hl. subst opened.
    rewrite (chat_stream_state env rid w data Hne E). cbv zeta.
    fold h user_text before.
    destruct Hl as [->|(turn & -> & -> & Hs)]; [apply heap_list_append|].
    destruct (is_str turn user_text) eqn:Es; [by apply is_str_true in Es|].
    apply heap_list_append.
  - done.
  - destruct Hlast as (turn & El & Ht).
    rewrite (chat_stream_state env rid opened data Hne E'). cbv zeta.
    fold h user_text. rewrite El.
    destruct Ht as [->| ->%is_str_true]; [done|]. by destruct (is_image_turn turn).
Qed.

Lemma chat_stream_appends_new_message_witness :
  "r1" <> ""
  /\ CHAT_REQUESTS Demo.staged !! chat_key "r1" = Some Demo.staged_data
  /\ heap_list (chat_stream Demo.env "r1" Demo.staged).2 0%nat = [PStr "solve x+1=2"]
  /\ heap_list (chat_stream Demo.env "r1" (chat_stream Demo.env "r1" Demo.staged).2).2 0%nat
     = heap_list (chat_stream Demo.env "r1" Demo.staged).2 0%nat.
Proof.
  split; [done|]. split; [vm_compute; reflexivity|].
  split; [vm_compute; reflexivity|].
  apply (chat_stream_appends_new_message Demo.env "r1" Demo.staged Demo.staged_data);
    [done|vm_compute; reflexivity].
Defined.

(** * Further properties *)

(** ** Editing a history *)

Lemma parity_after (n : nat) :
  (n mod 2 = 0 -> (n + 2) mod 2 = 0 /\ (n + 1) mod 2 <> 0)%nat.
Proof.
  intros H. rewrite <- (Nat.Div0.add_mod_idemp_l n 2), <- (Nat.Div0.add_mod_idemp_l n 1), H.
  done.
Qed.

Lemma pop_snoc (l : list pyval) (x : pyval) : pop (l ++ [x]) = Ok l.
Proof.
  unfold pop. destruct (l ++ [x]) eqn:E; [by destruct l|].
  rewrite <- E. by rewrite removelast_last.
Qed.

(** [undo_last] takes back the last exchange: on a history of whole exchanges
    followed by a question and its reply, or by a question alone, it returns
    the whole exchanges, and on an empty history it reports that there is
    nothing to undo.  Every history is of one of these three shapes, so the
    guarded [pop]s never fail. *)
Theorem undo_last_restores (h : list pyval) (u b : pyval) :
  (length h mod 2 = 0)%nat ->
  undo_last (h ++ [u; b]) = HistorySuccess h
  /\ undo_last (h ++ [u]) = HistorySuccess h
  /\ undo_last [] = HistoryError "No messages to undo".
Proof.
  intros Hh. split_and!; [| |done].
  - unfold undo_last.
    replace (truthy (PList (h ++ [u; b]))) with true by (by destruct h).
    replace (length (h ++ [u; b]) mod 2 =? 0)%nat with true
      by (symmetry; apply Nat.eqb_eq; rewrite length_app; by apply parity_after).
    cbn [negb]. change (h ++ [u; b]) with (h ++ [u] ++ [b]).
    rewrite (assoc (++)), pop_snoc. cbn [mbind result_bind]. by rewrite pop_snoc.
  - unfold undo_last.
    replace (truthy (PList (h ++ [u]))) with true by (by destruct h).
    replace (length (h ++ [u]) mod 2 =? 0)%nat with false
      by (symmetry; apply Nat.eqb_neq; rewrite length_app; by apply parity_after).
    cbn [negb]. by rewrite pop_snoc.
Qed.

Lemma undo_last_restores_witness :
  (length [PStr "q1"; PStr "a1"] mod 2 = 0)%nat
  /\ undo_last ([PStr "q1"; PStr "a1"] ++ [PStr "q2"; PStr "a2"])
     = HistorySuccess [PStr "q1"; PStr "a1"]
  /\ undo_last ([PStr "q1"; PStr "a1"] ++ [PStr "q2"]) = HistorySuccess [PStr "q1"; PStr "a1"]
  /\ undo_last [] = HistoryError "No messages to undo".
Proof.
  split; [reflexivity|].
  apply (undo_last_restores [PStr "q1"; PStr "a1"] (PStr "q2") (PStr "a2")). reflexivity.
Defined.

Lemma retry_last_complete_exchange (h : list pyval) (u b : pyval) :
  (length h mod 2 = 0)%nat ->
  retry_last (h ++ [u; b]) = HistorySuccess (h ++ [u]).
Proof.
  intros Hh. unfold retry_last.
  replace (length (h ++ [u; b]) <? 2)%nat with false
    by (symmetry; apply Nat.ltb_ge; rewrite length_app; simpl; lia).
  replace (length (h ++ [u; b]) mod 2 =? 0)%nat with true
    by (symmetry; apply Nat.eqb_eq; rewrite length_app; by apply parity_after).
  change (h ++ [u; b]) with (h ++ [u] ++ [b]).
  by rewrite (assoc (++)), pop_snoc.
Qed.

(** [retry_last] drops the last reply and keeps its question: after whole
    exchanges, a question with its reply loses the reply; a question that has
    no reply yet is returned as it is, unless it is the only turn, which is
    refused as having nothing to retry. *)
Theorem retry_last_keeps_question (h : list pyval) (u b : pyval) :
  (length h mod 2 = 0)%nat ->
  retry_last (h ++ [u; b]) = HistorySuccess (h ++ [u])
  /\ retry_last (h ++ [u])
     = match h with
       | [] => HistoryError "No previous message to retry"
       | _ :: _ => HistorySuccess (h ++ [u])
       end.
Proof.
  intros Hh. split; [by apply retry_last_complete_exchange|].
  destruct h as [|x h]; [done|].
  unfold retry_last.
  replace (length ((x :: h) ++ [u]) <? 2)%nat with false
    by (symmetry; apply Nat.ltb_ge; rewrite length_app; simpl; lia).
  replace (length ((x :: h) ++ [u]) mod 2 =? 0)%nat with false
    by (symmetry; apply Nat.eqb_neq; rewrite length_app; by apply parity_after).
  done.
Qed.

Lemma retry_last_keeps_question_witness :
  (length [PStr "q1"; PStr "a1"] mod 2 = 0)%nat
  /\ retry_last ([PStr "q1"; PStr "a1"] ++ [PStr "q2"; PStr "a2"])
     = HistorySuccess [PStr "q1"; PStr "a1"; PStr "q2"]
  /\ retry_last [PStr "q1"; PStr "a1"; PStr "q2"]
     = HistorySuccess [PStr "q1"; PStr "a1"; PStr "q2"].
Proof.
  split; [reflexivity|].
  apply (retry_last_keeps_question [PStr "q1"; PStr "a1"] (PStr "q2") (PStr "a2")).
  reflexivity.
Defined.

(** ** Staging, eviction and dispatch together *)

(** Stage, then dispatch: the key a successful [chat] returns opens a stream,
    and the history that stream works on is the submitted one, with at most the
    new message appended: never more than [MAX_HISTORY * 2] turns, and ending
    with an image turn or the new message's stripped text. *)
Theorem staged_key_opens_stream (env : environment) (request : ChatRequest) (w : world)
    (body : JSONBody) (w' : world) :
  chat env request w = (body, w') ->
  status body = "success" ->
  exists id data generator w'',
    request_id body = Some id
    /\ CHAT_REQUESTS w' !! chat_key id = Some data
    /\ chat_stream env id w' = (StreamingResponse generator, w'')
    /\ generator = generate_response env id (cd_history data) (cd_api_state data)
    /\ (heap_list w'' (cd_history data) = req_history request
        \/ heap_list w'' (cd_history data)
           = req_history request
             ++ [user_message_of (strip (msg_text (req_message request)))
                   (msg_image_data (req_message request))])
    /\ (length (heap_list w'' (cd_history data)) <= 40)%nat.
Proof.
  intros Hc Hs.
  destruct (chat_success env request w body w' Hc Hs)
    as (id & data & Hid & Hne & E & Hm & Hh & Hlen & _).
  pose proof (chat_stream_state env id w' data Hne E) as Hw. cbv zeta in Hw.
  exists id, data, (generate_response env id (cd_history data) (cd_api_state data)),
    (chat_stream env id w').2.
  assert (chat_stream env id w'
          = (StreamingResponse (generate_response env id (cd_history data)
                                  (cd_api_state data)), (chat_stream env id w').2)) as Hr.
  { unfold chat_stream. destruct (String.eqb_spec id ""); [done|]. by rewrite E. }
  assert (heap_list (chat_stream env id w').2 (cd_history data) = req_history request
          \/ heap_list (chat_stream env id w').2 (cd_history data)
             = req_history request
               ++ [user_message_of (strip (msg_text (req_message request)))
                     (msg_image_data (req_message request))]) as Hcases.
  { rewrite Hw, Hm, Hh.
    destruct (last (req_history request)) as [turn|].
    - destruct (is_image_turn turn); [by left|].
      destruct (is_str turn _); [by left|]. right. by rewrite heap_list_append, Hh.
    - right. by rewrite heap_list_append, Hh. }
  split_and!; [done|done|done|done|done|].
  destruct Hcases as [-> | ->]; [lia|]. rewrite length_app. simpl. lia.
Qed.

Lemma staged_key_opens_stream_witness :
  let request := Demo.submission [] Demo.usable "solve x+1=2" None in
  status (chat Demo.env request Demo.empty_world).1 = "success"
  /\ exists id data generator w'',
       request_id (chat Demo.env request Demo.empty_world).1 = Some id
       /\ CHAT_REQUESTS (chat Demo.env request Demo.empty_world).2 !! chat_key id = Some data
       /\ chat_stream Demo.env id (chat Demo.env request Demo.empty_world).2
          = (StreamingResponse generator, w'')
       /\ generator = generate_response Demo.env id (cd_history data) (cd_api_state data)
       /\ (heap_list w'' (cd_history data) = req_history request
           \/ heap_list w'' (cd_history data)
              = req_history request
                ++ [user_message_of (strip (msg_text (req_message request)))
                      (msg_image_data (req_message request))])
       /\ (length (heap_list w'' (cd_history data)) <= 40)%nat.
Proof.
  split; [reflexivity|].
  apply (staged_key_opens_stream Demo.env
           (Demo.submission [] Demo.usable "solve x+1=2" None) Demo.empty_world
           (chat Demo.env (Demo.submission [] Demo.usable "solve x+1=2" None)
              Demo.empty_world).1);
    [by destruct (chat _ _ _)|reflexivity].
Defined.

(** Stage, evict, then dispatch: once the timer a successful [chat] armed has
    run, and before anything is dispatched, the returned key is reported as an
    invalid or expired request, the timer's own entry is gone and the other
    pending requests are where they were. *)
Theorem evicted_key_is_refused (env : environment) (request : ChatRequest) (w : world)
    (body : JSONBody) (w' : world) :
  chat env request w = (body, w') ->
  status body = "success" ->
  exists id timer,
    request_id body = Some id
    /\ timers w' = timer :: timers w
    /\ interval timer = 300
    /\ chat_stream env id (cleanup_request_data (closure_request_id timer) w')
       = (JSONResponse {| status := "error"; message := Text.msg_invalid_request;
                          request_id := None |},
          cleanup_request_data (closure_request_id timer) w')
    /\ CHAT_REQUESTS (cleanup_request_data (closure_request_id timer) w')
       = delete (chat_key id) (CHAT_REQUESTS w).
Proof.
  intros Hc Hs.
  destruct (chat_success env request w body w' Hc Hs)
    as (id & data & Hid & Hne & E & _ & _ & _ & Ht).
  exists id, {| interval := 300; closure_request_id := id |}.
  split_and!; [done|done|done|..]; cbn [closure_request_id].
  - unfold chat_stream, cleanup_request_data. rewrite E. simpl.
    rewrite lookup_delete_eq. by destruct (String.eqb id "").
  - unfold cleanup_request_data. rewrite E. simpl.
    revert Hc Hid. unfold chat. destruct (_ || _); [by intros [= <- _]|].
    destruct (_ <=? _); [by intros [= <- _]|].
    destruct (timer_start env); [by intros [= <- _]|].
    intros [= <- <-] [= <-]. simpl. apply delete_insert_eq.
Qed.

Lemma evicted_key_is_refused_witness :
  let request := Demo.submission [] Demo.usable "solve x+1=2" None in
  status (chat Demo.env request Demo.staged).1 = "success"
  /\ exists id timer,
       request_id (chat Demo.env request Demo.staged).1 = Some id
       /\ timers (chat Demo.env request Demo.staged).2 = timer :: timers Demo.staged
       /\ interval timer = 300
       /\ chat_stream Demo.env id
            (cleanup_request_data (closure_request_id timer)
               (chat Demo.env request Demo.staged).2)
          = (JSONResponse {| status := "error"; message := Text.msg_invalid_request;
                             request_id := None |},
             cleanup_request_data (closure_request_id timer)
               (chat Demo.env request Demo.staged).2)
       /\ CHAT_REQUESTS (cleanup_request_data (closure_request_id timer)
                           (chat Demo.env request Demo.staged).2)
          = delete (chat_key id) (CHAT_REQUESTS Demo.staged).
Proof.
  split; [reflexivity|].
  apply (evicted_key_is_refused Demo.env
           (Demo.submission [] Demo.usable "solve x+1=2" None) Demo.staged
           (chat Demo.env (Demo.submission [] Demo.usable "solve x+1=2" None)
              Demo.staged).1);
    [by destruct (chat _ _ _)|reflexivity].
Defined.

(** A timer that cannot be started: [chat] reports a server error, yet the
    submission is already in the table and stays there with no timer armed for
    it; a dispatch with the client's key still opens its stream. *)
Theorem unstarted_timer_leaves_entry (env : environment) (request : ChatRequest)
    (w : world) (e : exn) (id : string) :
  timer_start env = Some e ->
  req_request_id request = Some id -> id <> "" ->
  truthy (PDict (req_api_state request))
  && truthy (dict_get_or (req_api_state request) "is_valid" (PBool false)) = true ->
  Z.of_nat (length (req_history request)) < MAX_HISTORY * 2 ->
  (chat env request w).1
  = {| status := "error"; message := Text.msg_server_error +:+ exn_str e;
       request_id := None |}
  /\ (cd_message <$> CHAT_REQUESTS (chat env request w).2 !! chat_key id)
     = Some (req_message request)
  /\ timers (chat env request w).2 = timers w
  /\ is_stream (chat_stream env id (chat env request w).2).1 = true.
Proof.
  intros Ht Hid Hne [Ha Hv]%andb_true_iff Hlen.
  assert (exists data,
            chat env request w
            = ({| status := "error"; message := Text.msg_server_error +:+ exn_str e;
                  request_id := None |},
               with_requests (insert (chat_key id) data)
                 (with_dicts (insert (cd_api_state data) (req_api_state request))
                    (with_lists (insert (cd_history data) (req_history request)) w)))
            /\ cd_message data = req_message request) as (data & -> & Hm).
  { unfold chat. rewrite Ha, Hv, Ht, Hid. cbn [negb orb].
    apply Z.ltb_lt in Hlen. rewrite Z.leb_antisym, Hlen. cbn [negb].
    destruct (String.eqb_spec id ""); [done|].
    by exists {| cd_history := fresh (dom (lists w)); cd_api_state := fresh (dom (dicts w));
                 cd_grade := req_grade request; cd_topic := req_topic request;
                 cd_message := req_message request; cd_timestamp := now_isoformat env |}. }
  cbn [fst snd]. split_and!; [done| |done|].
  - simpl. by rewrite lookup_insert_eq, <- Hm.
  - unfold chat_stream. destruct (String.eqb_spec id ""); [done|].
    simpl. by rewrite lookup_insert_eq.
Qed.

Lemma unstarted_timer_leaves_entry_witness :
  let request := Demo.submission [] Demo.usable "hi" (Some "r9") in
  (chat Demo.env_no_thread request Demo.empty_world).1
  = {| status := "error";
       message := Text.msg_server_error +:+ "can't start new thread";
       request_id := None |}
  /\ (cd_message <$> CHAT_REQUESTS (chat Demo.env_no_thread request Demo.empty_world).2
                     !! chat_key "r9")
     = Some (req_message request)
  /\ timers (chat Demo.env_no_thread request Demo.empty_world).2 = timers Demo.empty_world
  /\ is_stream (chat_stream Demo.env_no_thread "r9"
                  (chat Demo.env_no_thread request Demo.empty_world).2).1 = true.
Proof.
  apply (unstarted_timer_leaves_entry Demo.env_no_thread
           (Demo.submission [] Demo.usable "hi" (Some "r9")) Demo.empty_world
           (PyError "can't start new thread") "r9"); [reflexivity|reflexivity|done|..].
  - reflexivity.
  - by vm_compute.
Defined.



(** ** Saved widget states *)

Section StorageFacts.

Context (env : environment) (sys : io).

Lemma save_then_load (subdir default_prefix no_state what not_found key : string)
    (success : string -> pyval) (request : GraphSaveRequest) (disk : gmap string file) :
  (forall id, py_field (success id) key = Some (PStr id)) ->
  gs_state request <> [] ->
  write_error sys = None ->
  read_error sys = None ->
  exists id,
    py_field (save_state env sys subdir default_prefix no_state what success request disk).1
      key = Some (PStr id)
    /\ load_state sys subdir not_found what id
         (save_state env sys subdir default_prefix no_state what success request disk).2
       = LoadBody (PDict [("status", PStr "success");
                          ("data", saved_document env request id)]).
Proof.
  intros Hkey Hstate Hw Hr. unfold save_state, load_state.
  destruct (gs_state request) as [|item items] eqn:E; [done|].
  cbn [truthy negb].
  assert (parent_error sys = None /\ mkdir_error sys = None /\ open_error sys = None
          /\ dump_error sys = None) as (Hp & Hm & Ho & Hd).
  { revert Hw. unfold write_error.
    destruct (parent_error sys), (mkdir_error sys), (open_error sys), (dump_error sys);
      done. }
  unfold makedirs, write_json. rewrite Hp, Hm, Ho, Hd.
  destruct (disk !! "static");
    (destruct (_ !! path_join "static" subdir) as [[]|]; cbn [fst snd];
     (eexists; split; [apply Hkey|]; by rewrite lookup_insert_eq, Hr)).
Qed.

(** Save, then load: when a state is given and the disk answers, each of the
    four save handlers returns an id under which its load handler gives back
    the document just written (state, title, time of creation and id),
    whatever the disk held under that id before. *)
Theorem saved_state_loads_back (request : GraphSaveRequest) (disk : gmap string file) :
  gs_state request <> [] ->
  write_error sys = None ->
  read_error sys = None ->
  (exists id,
     py_field (save_graph env sys request disk).1 "graph_id" = Some (PStr id)
     /\ load_graph sys id (save_graph env sys request disk).2
        = LoadBody (PDict [("status", PStr "success");
                           ("data", saved_document env request id)]))
  /\ (exists id,
        py_field (save_geometry env sys request disk).1 "geometry_id" = Some (PStr id)
        /\ load_geometry sys id (save_geometry env sys request disk).2
           = LoadBody (PDict [("status", PStr "success");
                              ("data", saved_document env request id)]))
  /\ (exists id,
        py_field (save_3d_graph env sys request disk).1 "id" = Some (PStr id)
        /\ load_3d_graph sys id (save_3d_graph env sys request disk).2
           = LoadBody (PDict [("status", PStr "success");
                              ("data", saved_document env request id)]))
  /\ (exists id,
        py_field (save_tiles env sys request disk).1 "tiles_id" = Some (PStr id)
        /\ load_tiles sys id (save_tiles env sys request disk).2
           = LoadBody (PDict [("status", PStr "success");
                              ("data", saved_document env request id)])).
Proof.
  intros Hstate Hw Hr.
  split_and!; by apply save_then_load.
Qed.

End StorageFacts.

Lemma saved_state_loads_back_witness :
  py_field (save_graph Demo.env disk_quiet parabola ∅).1 "graph_id"
  = Some (PStr "graph_1700000000")
  /\ exists id,
       py_field (save_tiles Demo.env disk_quiet parabola ∅).1 "tiles_id" = Some (PStr id)
       /\ load_tiles disk_quiet id (save_tiles Demo.env disk_quiet parabola ∅).2
          = LoadBody (PDict [("status", PStr "success");
                             ("data", saved_document Demo.env parabola id)]).
Proof.
  split; [reflexivity|].
  apply (saved_state_loads_back Demo.env disk_quiet parabola ∅); done.
Defined.

(** ** More on the event stream *)

Section StreamFacts.

Context (env : environment).

Variables (request_id : string) (history api_state : loc).

(** The shape of a run with its [thinking] events counted. *)
Lemma drive_generate_response_counted others n w :
  exists ts cs t,
    (drive others n (generate_response env request_id history api_state w)).1
    = (Thinking <$> ts) ++ (Chunk <$> cs) ++ [t]
    /\ is_terminal t = true
    /\ (length ts <= 2)%nat
    /\ (cs <> [] \/ (exists c m k, t = Done c m k) -> length ts = 2%nat).
Proof.
  unfold generate_response.
  destruct (scientist_lookup _ _) as [scientist|e].
  2:{ destruct (drive_outer_except env request_id others n e w) as (c & _ & E & _).
      exists [], [], (Error c). rewrite E. split_and!; [done|done|simpl; lia|].
      by intros [?|(? & ? & ? & ?)]. }
  rewrite drive_yield. cbn [fst].
  destruct (prepare _ _ _ _ _) as [[content|cm request]|e].
  - destruct (drive_last request_id others (S n) (others n w) (Error content)) as [E _].
    eexists [_], [], (Error content). rewrite E.
    split_and!; [done|done|simpl; lia|]. by intros [?|(? & ? & ? & ?)].
  - rewrite drive_yield. cbn [fst].
    destruct (completions_create env request) as [stream|e].
    + destruct (drive_relay env request_id history api_state
                  (dict_get_or (heap_dict w api_state) "scientist_key" (PStr "none"))
                  cm stream others (S (S n)) "" (others (S n) (others n w)))
        as (cs & t & E & _ & Ht & _).
      eexists [_; _], cs, t. rewrite E.
      split_and!; [done|by eapply ending_terminal|simpl; lia|done].
    + destruct (drive_inner_except env request_id history others (S (S n)) e
                  (others (S n) (others n w))) as (c & _ & E & _).
      eexists [_; _], [], (Error c). rewrite E. split_and!; [done|done|simpl; lia|done].
  - destruct (drive_outer_except env request_id others (S n) e (others n w))
      as (c & _ & E & _).
    eexists [_], [], (Error c). rewrite E.
    split_and!; [done|done|simpl; lia|]. by intros [?|(? & ? & ? & ?)].
Qed.

End StreamFacts.

(** Order of the events: every run of a dispatched stream is at most two
    [thinking] events, then the [chunk] events, then the terminal event; no
    [thinking] event comes after a [chunk], and a run that relays a chunk or
    ends in [done] has sent both [thinking] events first. *)
Theorem thinking_precedes_chunks (env : environment) (rid : string) (w : world)
    (generator : world -> gstep) (w' : world) (others : nat -> world -> world) (n : nat)
    (w0 : world) :
  chat_stream env rid w = (StreamingResponse generator, w') ->
  exists ts cs t,
    (drive others n (generator w0)).1 = (Thinking <$> ts) ++ (Chunk <$> cs) ++ [t]
    /\ is_terminal t = true
    /\ (length ts <= 2)%nat
    /\ (cs <> [] \/ (exists c m k, t = Done c m k) -> length ts = 2%nat).
Proof.
  intros Hs.
  destruct (chat_stream_inv env rid w generator w' Hs) as (data & _ & _ & -> & _).
  apply drive_generate_response_counted.
Qed.

Lemma thinking_precedes_chunks_witness :
  exists ts cs t,
    (drive idle 0 (generate_response Demo.env "r1" 0%nat 0%nat Demo.staged)).1
    = (Thinking <$> ts) ++ (Chunk <$> cs) ++ [t]
    /\ is_terminal t = true
    /\ (length ts <= 2)%nat
    /\ (cs <> [] \/ (exists c m k, t = Done c m k) -> length ts = 2%nat).
Proof.
  exact (thinking_precedes_chunks Demo.env "r1" Demo.staged
           (generate_response Demo.env "r1" 0%nat 0%nat)
           (chat_stream Demo.env "r1" Demo.staged).2 idle 0%nat Demo.staged eq_refl).
Defined.

Lemma keeps_drive (I : world -> Prop) (others : nat -> world -> world) (g : gstep) :
  keeps I g -> (forall m w, I w -> I (others m w)) ->
  forall n, I (drive others n g).2.
Proof.
  intros Hg Ho. induction Hg as [w Hw|w e resume Hw _ IH]; intros n; [done|].
  rewrite drive_yield. cbn [snd]. apply IH. by apply Ho.
Qed.

Section Frame.

Context (env : environment).

Variables (request_id : string) (history api_state : loc).

(** A property of the shared state that none of the generator's writes can
    break: the appends to a list, the store into a dict, the two write-backs to
    its own entry and the removal of that entry. *)
Variable I : world -> Prop.

Hypothesis I_lists : forall f w, I w -> I (with_lists f w).
Hypothesis I_dicts : forall f w, I w -> I (with_dicts f w).
Hypothesis I_history : forall h w w',
  I w -> set_entry_history (chat_key request_id) h w = Some w' -> I w'.
Hypothesis I_api_state : forall a w w',
  I w -> set_entry_api_state (chat_key request_id) a w = Some w' -> I w'.
Hypothesis I_delete : forall w, I w -> I (with_requests (delete (chat_key request_id)) w).

Lemma keeps_finally w : I w -> keeps I (finally_ request_id w).
Proof.
  intros Hw. constructor. destruct (CHAT_REQUESTS w !! chat_key request_id); auto.
Qed.

Lemma keeps_last w e : I w -> keeps I (Yield w e (finally_ request_id)).
Proof. intros Hw. constructor; [done|]. apply keeps_finally. Qed.

Lemma keeps_outer_except e w : I w -> keeps I (outer_except env request_id e w).
Proof.
  intros Hw. apply keeps_last.
  destruct (CHAT_REQUESTS w !! chat_key request_id); [by apply I_lists|done].
Qed.

Lemma keeps_inner_except e w : I w -> keeps I (inner_except env request_id history e w).
Proof.
  intros Hw. unfold inner_except.
  destruct (set_entry_history _ _ _) as [w2|] eqn:E.
  - apply keeps_last. eapply I_history; [|done]. by apply I_lists.
  - apply keeps_outer_except. by apply I_lists.
Qed.

Lemma after_stream_keeps cm full_response w :
  I w -> I (after_stream env request_id history api_state cm full_response w).1.
Proof.
  intros Hw. unfold after_stream.
  assert (I (list_append history (PStr full_response) w)) as H1 by by apply I_lists.
  destruct (_ !! _) as [last_user_message|]; [|done].
  destruct (2 <=? _)%nat; [|done].
  destruct (update_memory _ _ _) as [cm'|e]; [|done].
  match goal with |- context [set_entry_history ?k ?h ?w2] =>
    assert (I w2) as H2 by (by apply I_dicts);
    destruct (set_entry_history k h w2) as [w3|] eqn:E3; [|done] end.
  assert (I w3) as H3 by (by eapply I_history).
  destruct (set_entry_api_state _ _ w3) as [w4|] eqn:E4; [|done].
  by eapply I_api_state.
Qed.

Lemma keeps_complete sk cm full_response w :
  I w -> keeps I (complete env request_id history api_state sk cm full_response w).
Proof.
  intros Hw. unfold complete.
  pose proof (after_stream_keeps cm full_response w Hw) as H.
  destruct (after_stream _ _ _ _ _ _ _) as [w' [cm'|e]]; simpl in H.
  - by apply keeps_last.
  - by apply keeps_inner_except.
Qed.

Lemma keeps_relay sk cm stream : forall full_response w,
  I w -> keeps I (relay env request_id history api_state sk cm stream full_response w).
Proof.
  induction stream as [|chunk rest IH|e]; intros full_response w Hw; cbn [relay].
  - by apply keeps_complete.
  - destruct (choices chunk) as [|choice ?]; [by apply keeps_inner_except|].
    destruct (delta_content choice) as [content|]; [|by apply IH].
    constructor; [done|]. intros w' Hw'. by apply IH.
  - by apply keeps_inner_except.
Qed.

Lemma keeps_generate_response w :
  I w -> keeps I (generate_response env request_id history api_state w).
Proof.
  intros Hw. unfold generate_response.
  destruct (scientist_lookup _ _) as [scientist|e]; [|by apply keeps_outer_except].
  constructor; [done|]. intros w1 Hw1.
  destruct (prepare _ _ _ _ _) as [[content|cm request]|e].
  - by apply keeps_last.
  - constructor; [done|]. intros w2 Hw2.
    destruct (completions_create env request) as [stream|e].
    + by apply keeps_relay.
    + by apply keeps_inner_except.
  - by apply keeps_outer_except.
Qed.

End Frame.

(** A stream touches only its own entry: when the rest of the process leaves
    the entry of another key and the timers alone while a stream runs, the run
    ends with that entry and the timers as they were when it started. *)
Theorem stream_touches_only_its_entry (env : environment) (rid : string) (w : world)
    (generator : world -> gstep) (w' : world) (others : nat -> world -> world) (n : nat)
    (w0 : world) (k : string) :
  chat_stream env rid w = (StreamingResponse generator, w') ->
  k <> chat_key rid ->
  (forall m w1,
     CHAT_REQUESTS (others m w1) !! k = CHAT_REQUESTS w1 !! k
     /\ timers (others m w1) = timers w1) ->
  CHAT_REQUESTS (drive others n (generator w0)).2 !! k = CHAT_REQUESTS w0 !! k
  /\ timers (drive others n (generator w0)).2 = timers w0.
Proof.
  intros Hs Hk Ho.
  destruct (chat_stream_inv env rid w generator w' Hs) as (data & _ & _ & -> & _).
  apply (keeps_drive
           (fun w1 => CHAT_REQUESTS w1 !! k = CHAT_REQUESTS w0 !! k /\ timers w1 = timers w0)).
  - apply keeps_generate_response; try done.
    + intros h w1 w2 [H1 H2]. unfold set_entry_history.
      destruct (CHAT_REQUESTS w1 !! chat_key rid); [|done]. intros [= <-].
      simpl. by rewrite lookup_insert_ne.
    + intros a w1 w2 [H1 H2]. unfold set_entry_api_state.
      destruct (CHAT_REQUESTS w1 !! chat_key rid); [|done]. intros [= <-].
      simpl. by rewrite lookup_insert_ne.
    + intros w1 [H1 H2]. simpl. by rewrite lookup_delete_ne.
  - intros m w1 [H1 H2]. destruct (Ho m w1) as [-> ->]. done.
Qed.

Lemma stream_touches_only_its_entry_witness :
  let others (m : nat) := cleanup_request_data "r1" in
  let two := (chat Demo.env (Demo.submission [] Demo.usable "hi" (Some "r2")) Demo.staged).2 in
  chat_key "r2" <> chat_key "r1"
  /\ CHAT_REQUESTS (drive others 0 (generate_response Demo.env "r1" 0%nat 0%nat two)).2
       !! chat_key "r2" = CHAT_REQUESTS two !! chat_key "r2"
  /\ timers (drive others 0 (generate_response Demo.env "r1" 0%nat 0%nat two)).2
     = timers two.
Proof.
  split; [done|].
  apply (stream_touches_only_its_entry Demo.env "r1"
           (chat Demo.env (Demo.submission [] Demo.usable "hi" (Some "r2")) Demo.staged).2
           (generate_response Demo.env "r1" 0%nat 0%nat)
           (chat_stream Demo.env "r1"
              (chat Demo.env (Demo.submission [] Demo.usable "hi" (Some "r2"))
                 Demo.staged).2).2
           (fun _ => cleanup_request_data "r1") 0%nat); [reflexivity|done|].
  intros m w1. unfold cleanup_request_data.
  destruct (CHAT_REQUESTS w1 !! chat_key "r1"); [|done].
  split; [|done]. simpl. by apply lookup_delete_ne.
Defined.

Lemma requests_list_append (l : loc) (v : pyval) (w : world) :
  CHAT_REQUESTS (list_append l v w) = CHAT_REQUESTS w.
Proof. done. Qed.

Section Gone.

Context (env : environment).

Variables (request_id : string) (history api_state : loc).

Variable others : nat -> world -> world.

(** Nothing stages the key again while the stream runs. *)
Hypothesis stays_gone : forall m w,
  CHAT_REQUESTS w !! chat_key request_id = None ->
  CHAT_REQUESTS (others m w) !! chat_key request_id = None.

Lemma drive_inner_except_gone n e w :
  CHAT_REQUESTS w !! chat_key request_id = None ->
  (drive others n (inner_except env request_id history e w)).1 = [gone env request_id].
Proof.
  intros Hw. unfold inner_except, set_entry_history.
  rewrite requests_list_append, Hw.
  unfold outer_except. rewrite requests_list_append, Hw.
  destruct (drive_last request_id others n
              (list_append history (PStr (handle_api_error e)) w) (gone env request_id))
    as [E _].
  exact E.
Qed.

Lemma after_stream_gone cm full_response w :
  CHAT_REQUESTS w !! chat_key request_id = None ->
  exists w' e,
    after_stream env request_id history api_state cm full_response w = (w', Raise e)
    /\ CHAT_REQUESTS w' !! chat_key request_id = None.
Proof.
  intros Hw. unfold after_stream, raise_py, set_entry_history.
  destruct (heap_list _ _ !! _) as [last_user_message|];
    [|eexists _, _; split; [reflexivity|done]].
  destruct (2 <=? _)%nat; [|eexists _, _; split; [reflexivity|done]].
  destruct (update_memory _ _ _) as [cm'|e]; [|eexists _, _; split; [reflexivity|done]].
  simpl. rewrite Hw. eexists _, _; split; [reflexivity|done].
Qed.

Lemma drive_relay_gone sk cm stream : forall n full_response w,
  CHAT_REQUESTS w !! chat_key request_id = None ->
  (drive others n (relay env request_id history api_state sk cm stream full_response w)).1
  = (Chunk <$> fragments stream) ++ [gone env request_id].
Proof.
  induction stream as [|chunk rest IH|e]; intros n full_response w Hw; cbn [relay fragments].
  - unfold complete.
    destruct (after_stream_gone cm full_response w Hw) as (w' & e & -> & Hw').
    by apply drive_inner_except_gone.
  - destruct (choices chunk) as [|choice ?]; [by apply drive_inner_except_gone|].
    destruct (delta_content choice) as [content|]; [|by apply IH].
    rewrite drive_yield. cbn [fst]. rewrite IH; [done|]. by apply stays_gone.
  - by apply drive_inner_except_gone.
Qed.

Lemma drive_generate_response_gone n w :
  CHAT_REQUESTS w !! chat_key request_id = None ->
  exists ts cs content,
    (drive others n (generate_response env request_id history api_state w)).1
    = (Thinking <$> ts) ++ (Chunk <$> cs) ++ [Error content]
    /\ (length ts = 2%nat -> Error content = gone env request_id).
Proof.
  intros Hw. unfold generate_response.
  destruct (scientist_lookup _ _) as [scientist|e].
  2:{ destruct (drive_outer_except env request_id others n e w) as (c & _ & E & _).
      exists [], [], c. by rewrite E. }
  rewrite drive_yield. cbn [fst].
  destruct (prepare _ _ _ _ _) as [[content|cm request]|e].
  - destruct (drive_last request_id others (S n) (others n w) (Error content)) as [E _].
    eexists [_], [], content. by rewrite E.
  - rewrite drive_yield. cbn [fst].
    assert (CHAT_REQUESTS (others (S n) (others n w)) !! chat_key request_id = None)
      as Hw2 by (by do 2 apply stays_gone).
    destruct (completions_create env request) as [stream|e].
    + eexists [_; _], (fragments stream), _. rewrite drive_relay_gone by done. done.
    + eexists [_; _], [], _. rewrite drive_inner_except_gone by done. done.
  - destruct (drive_outer_except env request_id others (S n) e (others n w))
      as (c & _ & E & _).
    eexists [_], [], c. by rewrite E.
Qed.

End Gone.

(** A stream whose entry is gone: when a dispatched stream runs on a state
    that no longer has its entry (evicted, or removed by an earlier stream of
    the same key) and nothing stages the key again, the run never reaches
    [done].  It ends in an [error] event, and once both [thinking] events are
    out, so that the provider is called, that event is the "Unexpected error"
    naming the key, after whatever chunks were relayed. *)
Theorem stream_without_entry_ends_in_error (env : environment) (rid : string) (w : world)
    (generator : world -> gstep) (w' : world) (others : nat -> world -> world) (n : nat)
    (w0 : world) :
  chat_stream env rid w = (StreamingResponse generator, w') ->
  (forall m w1,
     CHAT_REQUESTS w1 !! chat_key rid = None ->
     CHAT_REQUESTS (others m w1) !! chat_key rid = None) ->
  CHAT_REQUESTS w0 !! chat_key rid = None ->
  exists ts cs content,
    (drive others n (generator w0)).1
    = (Thinking <$> ts) ++ (Chunk <$> cs) ++ [Error content]
    /\ (length ts = 2%nat ->
        content = format_error_message env
                    (Text.msg_unexpected +:+ py_errtext env (KeyError (chat_key rid)))).
Proof.
  intros Hs Ho Hw0.
  destruct (chat_stream_inv env rid w generator w' Hs) as (data & _ & _ & -> & _).
  destruct (drive_generate_response_gone env rid (cd_history data) (cd_api_state data)
              others Ho n w0 Hw0) as (ts & cs & content & E & Hc).
  exists ts, cs, content. split; [done|]. intros Hts. by injection (Hc Hts).
Qed.

Lemma stream_without_entry_ends_in_error_witness :
  let opened := (chat_stream Demo.env "r1" Demo.staged).2 in
  let first := drive idle 0 (generate_response Demo.env "r1" 0%nat 0%nat opened) in
  CHAT_REQUESTS first.2 !! chat_key "r1" = None
  /\ exists ts cs content,
       (drive idle 0 (generate_response Demo.env "r1" 0%nat 0%nat first.2)).1
       = (Thinking <$> ts) ++ (Chunk <$> cs) ++ [Error content]
       /\ (length ts = 2%nat ->
           content = format_error_message Demo.env
                       (Text.msg_unexpected
                        +:+ py_errtext Demo.env (KeyError (chat_key "r1")))).
Proof.
  assert (CHAT_REQUESTS
            (drive idle 0 (generate_response Demo.env "r1" 0%nat 0%nat
                             (chat_stream Demo.env "r1" Demo.staged).2)).2
          !! chat_key "r1" = None) as Hgone by (vm_compute; reflexivity).
  split; [exact Hgone|].
  exact (stream_without_entry_ends_in_error Demo.env "r1" Demo.staged
           (generate_response Demo.env "r1" 0%nat 0%nat)
           (chat_stream Demo.env "r1" Demo.staged).2 idle 0%nat _ eq_refl
           (fun _ _ H => H) Hgone).
Defined.

Section Present.

Context (env : environment).

Variables (request_id : string) (history api_state : loc).

Lemma drive_inner_except_present n e w :
  is_Some (CHAT_REQUESTS w !! chat_key request_id) ->
  (drive idle n (inner_except env request_id history e w)).1
  = [Error (handle_api_error e)].
Proof.
  intros [data Hw]. unfold inner_except, set_entry_history.
  rewrite requests_list_append, Hw.
  by destruct (drive_last request_id idle n
                 (with_requests
                    (insert (chat_key request_id)
                       {| cd_history := history; cd_api_state := cd_api_state data;
                          cd_grade := cd_grade data; cd_topic := cd_topic data;
                          cd_message := cd_message data;
                          cd_timestamp := cd_timestamp data |})
                    (list_append history (PStr (handle_api_error e)) w))
                 (Error (handle_api_error e))) as [E _].
Qed.

Lemma drive_relay_failure sk cm stream e : forall n full_response w,
  failure env stream = Some e ->
  is_Some (CHAT_REQUESTS w !! chat_key request_id) ->
  (drive idle n (relay env request_id history api_state sk cm stream full_response w)).1
  = (Chunk <$> fragments stream) ++ [Error (handle_api_error e)].
Proof.
  induction stream as [|chunk rest IH|e']; intros n full_response w Hf Hw;
    cbn [relay fragments failure] in *.
  - done.
  - destruct (choices chunk) as [|choice ?].
    { injection Hf as <-. by apply drive_inner_except_present. }
    destruct (delta_content choice) as [content|]; [|by apply IH].
    rewrite drive_yield. cbn [fst]. by rewrite IH.
  - injection Hf as <-. by apply drive_inner_except_present.
Qed.

End Present.

(** A failing provider: in an undisturbed run whose entry is pending and whose
    request was prepared, a provider that refuses the call, or whose stream
    breaks, ends the stream with the fragments delivered until then, each as a
    [chunk] event, followed by one [error] event worded by [handle_api_error]
    (the fixed texts for a rate limit or a lost connection). *)
Theorem provider_failure_ends_stream (env : environment) (rid : string)
    (history api_state : loc) (w : world) (scientist : option ScientistProfile)
    (cm : pyval) (request : api_request) (err : exn) (delivered : list string) :
  is_Some (CHAT_REQUESTS w !! chat_key rid) ->
  scientist_lookup env (dict_get_or (heap_dict w api_state) "scientist_key" (PStr "none"))
  = Ok scientist ->
  prepare env history api_state
    (match scientist with
     | Some s => Text.classroom_before +:+ display_name s +:+ Text.classroom_after
     | None => ""
     end) w = Ok (Ready cm request) ->
  (completions_create env request = Raise err /\ delivered = [])
  \/ (exists stream,
        completions_create env request = Ok stream
        /\ failure env stream = Some err /\ delivered = fragments stream) ->
  exists t1 t2,
    (drive idle 0 (generate_response env rid history api_state w)).1
    = [Thinking t1; Thinking t2] ++ (Chunk <$> delivered) ++ [Error (handle_api_error err)].
Proof.
  intros Hw Hs Hp Hc. unfold generate_response. rewrite Hs.
  rewrite drive_yield. cbn [fst]. unfold idle at 2. rewrite Hp.
  rewrite drive_yield. cbn [fst]. unfold idle at 2.
  destruct Hc as [[-> ->]|(stream & -> & Hf & ->)].
  - rewrite drive_inner_except_present by done. by eexists _, _.
  - rewrite (drive_relay_failure env rid history api_state _ _ stream err) by done.
    by eexists _, _.
Qed.

Lemma provider_failure_ends_stream_witness :
  let w := (chat_stream env_interrupted "r1" Demo.staged).2 in
  is_Some (CHAT_REQUESTS w !! chat_key "r1")
  /\ exists t1 t2,
       (drive idle 0 (generate_response env_interrupted "r1" 0%nat 0%nat w)).1
       = [Thinking t1; Thinking t2] ++ (Chunk <$> ["Hel"])
         ++ [Error Text.msg_connection].
Proof.
  split; [by eexists|].
  eapply (provider_failure_ends_stream env_interrupted "r1" 0%nat 0%nat
            (chat_stream env_interrupted "r1" Demo.staged).2 None _ _
            (APIConnectionError "Connection error.") ["Hel"]).
  - by eexists.
  - reflexivity.
  - reflexivity.
  - right. exists interrupted. by split_and!.
Defined.

(** ** The request to the provider *)

Section RequestFacts.

Context (env : environment).

Lemma image_message_role (turn : pydict) (m : api_message) :
  image_message env turn = Ok m -> role m = "user".
Proof.
  unfold image_message. destruct (truthy _); [|by intros [= <-]].
  destruct (dict_get_or _ _ _); try done. by intros [= <-].
Qed.

Lemma turn_messages_roles (user_msg bot_msg : pyval) :
  Forall (fun m => role m = "user" \/ role m = "assistant")
    (turn_messages env user_msg bot_msg)
  /\ (length (turn_messages env user_msg bot_msg) <= 2)%nat.
Proof.
  unfold turn_messages.
  assert (exists m, role m = "user"
            /\ match user_msg with
               | PDict d =>
                   if is_image_turn user_msg then
                     match image_message env d with
                     | Ok m => [m]
                     | Raise _ =>
                         [user_says (Text.msg_image_failed
                                     +:+ str_of env (dict_get_or d "text" (PStr "")))]
                     end
                   else [user_says (str_of env user_msg)]
               | _ => [user_says (str_of env user_msg)]
               end = [m]) as (m & Hm & ->).
  { destruct user_msg as [| | | | | |fields]; try by eexists (user_says _).
    destruct (is_image_turn (PDict fields)); [|by eexists (user_says _)].
    destruct (image_message env fields) as [m|e] eqn:E; [|by eexists (user_says _)].
    exists m. split; [by eapply image_message_role|done]. }
  destruct (truthy bot_msg); simpl; (split; [|lia]).
  - constructor; [by left|]. constructor; [by right|]. constructor.
  - constructor; [by left|]. constructor.
Qed.

Lemma history_messages_roles (history : list pyval) :
  Forall (fun m => role m = "user" \/ role m = "assistant") (history_messages env history)
  /\ (length (history_messages env history) <= length history)%nat.
Proof.
  cut (forall h,
         (Forall (fun m => role m = "user" \/ role m = "assistant") (history_messages env h)
          /\ (length (history_messages env h) <= length h)%nat)
         /\ forall x,
              Forall (fun m => role m = "user" \/ role m = "assistant")
                (history_messages env (x :: h))
              /\ (length (history_messages env (x :: h)) <= length (x :: h))%nat).
  { intros H. apply H. }
  induction h as [|y h [IH IH']]; [by repeat split; simpl; try lia; constructor|].
  split; [apply IH'|]. intros x. cbn [history_messages].
  destruct (turn_messages_roles x y) as [Hr Hl]. destruct IH as [IHr IHl].
  split; [by apply Forall_app|]. rewrite length_app. simpl. lia.
Qed.

(** The request a stream prepares: it opens with the one system message,
    closes with a user message made of the last turn of the history, and holds
    between them only user and assistant messages, no more than the history
    has turns; it names the model of the module and asks for a stream. *)
Theorem prepared_request_shape (history api_state : loc) (classroom_context : string)
    (w : world) (cm : pyval) (request : api_request) :
  prepare env history api_state classroom_context w = Ok (Ready cm request) ->
  exists system_prompt turns final,
    messages request
    = {| role := "system"; content := Plain system_prompt |} :: turns ++ [final]
    /\ Forall (fun m => role m = "user" \/ role m = "assistant") turns
    /\ role final = "user"
    /\ (length turns <= length (heap_list w history))%nat
    /\ model request = DEFAULT_MODEL_ID
    /\ stream request = true.
Proof.
  unfold prepare.
  repeat match goal with
         | |- context [mbind _ ?m] => destruct m; cbn [mbind result_bind]; [|done]
         end.
  destruct (history_messages_roles (heap_list w history)) as [Hr Hl].
  match goal with
  | |- context [is_image_turn ?v] => destruct v as [| | | | | |fields]
  end;
    try (intros [= <- <-]; eexists _, _, _; split_and!; [reflexivity|done..]).
  destruct (is_image_turn (PDict fields));
    [|intros [= <- <-]; eexists _, _, _; split_and!; [reflexivity|done..]].
  destruct (image_message env fields) as [m|e] eqn:E; [|done].
  intros [= <- <-]. eexists _, _, _. split_and!; [reflexivity|done| |done..].
  by eapply image_message_role.
Qed.

End RequestFacts.

Lemma prepared_request_shape_witness :
  exists system_prompt turns final,
    messages (prepared_request)
    = {| role := "system"; content := Plain system_prompt |} :: turns ++ [final]
    /\ Forall (fun m => role m = "user" \/ role m = "assistant") turns
    /\ role final = "user"
    /\ (length turns <= length (heap_list answered_three 0%nat))%nat
    /\ model prepared_request = DEFAULT_MODEL_ID
    /\ stream prepared_request = true.
Proof.
  eapply (prepared_request_shape Demo.env 0%nat 0%nat "" answered_three).
  reflexivity.
Defined.

(** ** The conversation memory *)

Lemma dict_get_set_eq (d : pydict) (k : string) (v : pyval) :
  dict_get (dict_set d k v) k = Some v.
Proof.
  induction d as [|[k' v'] d IH]; simpl; [by rewrite String.eqb_refl|].
  destruct (String.eqb k' k) eqn:E; simpl; [by rewrite String.eqb_refl|by rewrite E].
Qed.

Lemma dict_get_set_ne (d : pydict) (k k' : string) (v : pyval) :
  k <> k' -> dict_get (dict_set d k v) k' = dict_get d k'.
Proof.
  intros Hne. induction d as [|[k0 v0] d IH]; simpl.
  - by destruct (String.eqb_spec k k').
  - destruct (String.eqb_spec k0 k) as [->|]; simpl.
    + by destruct (String.eqb_spec k k').
    + by rewrite IH.
Qed.

Lemma len_take_chars (n : nat) (s : string) : (len_chars (take_chars n s) <= n)%nat.
Proof.
  revert n. induction s as [|c s IH]; intros n; simpl; [lia|].
  destruct (is_cont c) eqn:E; simpl; [rewrite E; apply IH|].
  destruct n as [|n]; simpl; [lia|]. rewrite E. specialize (IH n). lia.
Qed.

Lemma existsb_is_str (items : list pyval) (x : string) :
  existsb (fun item => is_str item x) items = false -> PStr x ∉ items.
Proof.
  induction items as [|item items IH]; simpl; [intros _; apply not_elem_of_nil|].
  intros [H1 H2]%orb_false_iff. apply not_elem_of_cons. split; [|by apply IH].
  intros <-. simpl in H1. by rewrite String.eqb_refl in H1.
Qed.

Section MemoryFacts.

Context (env : environment).

(** A memory as [initialize_chatbot] and the default make it: a dict whose
    topics and user_questions are lists; [ts] and [qs] are the lists it had
    before the update, [new] the topics added so far. *)
Definition memory_grown (ts qs : list pyval) (new : list string) (cm : pyval) : Prop :=
  exists d,
    cm = PDict d
    /\ dict_get d "topics" = Some (PList (ts ++ (PStr <$> new)))
    /\ dict_get d "user_questions" = Some (PList qs)
    /\ NoDup new
    /\ Forall (fun t => t ∈ Text.math_topics.*1 /\ PStr t ∉ ts) new.

Lemma note_topic_grows ts qs new cm lowered entry :
  entry ∈ Text.math_topics ->
  memory_grown ts qs new cm ->
  exists new' cm',
    note_topic env lowered (Ok cm) entry = Ok cm' /\ memory_grown ts qs new' cm'.
Proof.
  intros Hin (d & -> & Ht & Hq & Hnd & Hall).
  unfold note_topic. cbn [mbind result_bind].
  destruct (existsb _ entry.2); [|exists new; eexists; split; [done|by exists d]].
  unfold subscript. rewrite Ht. cbn [mbind result_bind py_in].
  destruct (existsb _ _) eqn:Hex; [exists new; eexists; split; [done|by exists d]|].
  apply existsb_is_str in Hex. apply not_elem_of_app in Hex as [Hts Hnew].
  unfold append_field, subscript. rewrite Ht. cbn [mbind result_bind].
  exists (new ++ [entry.1]). eexists. split; [done|].
  eexists. split_and!; [done|..].
  - rewrite dict_get_set_eq, fmap_app. by rewrite (assoc (++)).
  - by rewrite dict_get_set_ne.
  - apply NoDup_app. split_and!; [done| |apply NoDup_singleton].
    intros t Ht1 ->%list_elem_of_singleton. apply Hnew.
    by apply list_elem_of_fmap_2.
  - apply Forall_app. split; [done|]. constructor; [|done].
    split; [|done]. apply list_elem_of_fmap. by exists entry.
Qed.

Lemma note_topics_grow ts qs lowered (entries : list (string * list string)) :
  forall new cm,
    entries ⊆ Text.math_topics ->
    memory_grown ts qs new cm ->
    exists new' cm',
      foldl (note_topic env lowered) (Ok cm) entries = Ok cm'
      /\ memory_grown ts qs new' cm'.
Proof.
  induction entries as [|entry entries IH]; intros new cm Hsub Hm; cbn [foldl].
  - by exists new, cm.
  - destruct (note_topic_grows ts qs new cm lowered entry) as (new1 & cm1 & -> & Hm1);
      [apply Hsub; by left|done|].
    apply (IH new1 cm1); [|done]. intros x Hx. apply Hsub. by right.
Qed.

(** The memory stays well-formed and bounded: on a memory whose topics and
    user questions are lists, [update_memory] never fails; it only appends to
    the topics, each added topic being one of [math_topics] that was not there
    and none added twice; and it leaves the user questions as they are or,
    when there are fewer than five, appends one more of at most 100 characters. *)
Theorem update_memory_grows_bounded (d : pydict) (ts qs : list pyval)
    (last_user_message : pyval) :
  dict_get d "topics" = Some (PList ts) ->
  dict_get d "user_questions" = Some (PList qs) ->
  exists d' new qs',
    update_memory env (PDict d) last_user_message = Ok (PDict d')
    /\ dict_get d' "topics" = Some (PList (ts ++ (PStr <$> new)))
    /\ NoDup new
    /\ Forall (fun t => t ∈ Text.math_topics.*1 /\ PStr t ∉ ts) new
    /\ dict_get d' "user_questions" = Some (PList qs')
    /\ (qs' = qs
        \/ ((length qs < 5)%nat
            /\ exists q, qs' = qs ++ [PStr q] /\ (len_chars q <= 100)%nat)).
Proof.
  intros Ht Hq. unfold update_memory.
  destruct last_user_message as [| | | |s| |];
    try (exists d, [], qs; rewrite app_nil_r;
         split_and!; [done|done|constructor|constructor|done|by left]).
  destruct (note_topics_grow ts qs (py_lower env s) Text.math_topics [] (PDict d))
    as (new & cm & -> & d' & -> & Ht' & Hq' & Hnd & Hall).
  { done. }
  { exists d. rewrite app_nil_r. split_and!; [done|done|done|constructor|constructor]. }
  cbn [mbind result_bind]. unfold subscript at 1. rewrite Hq'.
  cbn [mbind result_bind py_len].
  destruct (length qs <? 5)%nat eqn:Hlen.
  - unfold append_field, subscript. rewrite Hq'. cbn [mbind result_bind].
    eexists _, new, _. split_and!; [done| |done|done|apply dict_get_set_eq|].
    + by rewrite dict_get_set_ne.
    + right. split; [by apply Nat.ltb_lt|]. eexists. split; [done|]. apply len_take_chars.
  - exists d', new, qs. split_and!; [done|done|done|done|done|by left].
Qed.

End MemoryFacts.

Lemma update_memory_grows_bounded_witness :
  exists d' new qs',
    update_memory Demo.env default_memory (PStr "Solve the EQUATION x+1=2") = Ok (PDict d')
    /\ dict_get d' "topics" = Some (PList ([] ++ (PStr <$> new)))
    /\ NoDup new
    /\ Forall (fun t => t ∈ Text.math_topics.*1 /\ PStr t ∉ []) new
    /\ dict_get d' "user_questions" = Some (PList qs')
    /\ (qs' = []
        \/ ((length (@nil pyval) < 5)%nat
            /\ exists q, qs' = [] ++ [PStr q] /\ (len_chars q <= 100)%nat)).
Proof.
  apply (update_memory_grows_bounded Demo.env
           [("topics", PList []); ("user_questions", PList []);
            ("misconceptions", PList []); ("strengths", PList []);
            ("weaknesses", PList [])] [] [] (PStr "Solve the EQUATION x+1=2"));
    reflexivity.
Defined.

(** ** Image previews *)

Lemma prefix_app_l (p h rest : string) :
  String.prefix p h = true -> String.prefix p (h +:+ rest) = true.
Proof.
  revert h. induction p as [|c p IH]; intros h; [by destruct h, rest|].
  destruct h as [|c' h]; [done|]. rewrite text_app_cons. simpl.
  destruct (Ascii.ascii_dec c c'); [apply IH|done].
Qed.

Lemma comma_free_cons (c : ascii) (s : string) :
  contains "," (String c s) = false ->
  Ascii.eqb c "," = false /\ contains "," s = false.
Proof.
  cbn [contains]. intros [H1 H2]%orb_false_iff. split; [|done].
  destruct (Ascii.eqb_spec c ","); [|done]. subst. cbn [String.prefix] in H1.
  destruct (Ascii.ascii_dec "," ","); [by destruct s|done].
Qed.

Lemma upto_comma_free (s : string) : contains "," s = false -> upto_comma s = s.
Proof.
  induction s as [|c s IH]; [done|]. intros [E H]%comma_free_cons.
  simpl. rewrite E. by rewrite IH.
Qed.

Lemma after_comma_app (header rest : string) :
  contains "," header = false -> after_comma (header +:+ "," +:+ rest) = rest.
Proof.
  induction header as [|c header IH]; [by rewrite text_app_nil_l|].
  intros [E H]%comma_free_cons. rewrite text_app_cons. simpl. rewrite E. by apply IH.
Qed.

Section ImageFacts.

Context (env : environment).

(** Only the payload of a stored preview reaches the provider, under a JPEG
    label: for a preview [header,payload] whose header starts with data:image
    and where neither part holds a comma, the image turn becomes a user
    message whose image URL is the fixed JPEG data-URL prefix followed by the
    payload, whatever media type the header declared, with the turn's text
    beside it. *)
Theorem image_preview_sent_as_jpeg (turn : pydict) (header payload : string) :
  String.prefix "data:image" header = true ->
  contains "," header = false ->
  contains "," payload = false ->
  dict_get turn "preview" = Some (PStr (header +:+ "," +:+ payload)) ->
  image_message env turn
  = Ok {| role := "user";
          content := Parts [ImageUrl (Text.data_url_prefix +:+ payload);
                            TextPart (dict_get_or turn "text" (PStr ""))] |}.
Proof.
  intros Hp Hh Hpl Hget. unfold image_message, dict_get_or. rewrite Hget. cbn [default from_option id].
  assert (truthy (PStr (header +:+ "," +:+ payload)) = true) as ->.
  { destruct header; [done|]. by rewrite text_app_cons. }
  unfold base64_part. rewrite (prefix_app_l _ _ _ Hp), contains_app.
  unfold split_comma_1. rewrite after_comma_app by done. by rewrite upto_comma_free.
Qed.

End ImageFacts.

Lemma image_preview_sent_as_jpeg_witness :
  image_message Demo.env
    [("type", PStr "image"); ("text", PStr "What is this?");
     ("preview", PStr ("data:image/png;base64" +:+ "," +:+ "iVBORw0KGgo="))]
  = Ok {| role := "user";
          content := Parts [ImageUrl (Text.data_url_prefix +:+ "iVBORw0KGgo=");
                            TextPart (dict_get_or
                                        [("type", PStr "image"); ("text", PStr "What is this?");
                                         ("preview", PStr ("data:image/png;base64" +:+ ","
                                                           +:+ "iVBORw0KGgo="))]
                                        "text" (PStr ""))] |}.
Proof.
  apply (image_preview_sent_as_jpeg Demo.env _ "data:image/png;base64" "iVBORw0KGgo=");
    reflexivity.
Defined.
